(** * GithubSearch: a shallow embedding of [github_search.py]

    The program is a command-line client: it validates a page number,
    issues one HTTP GET against the GitHub repository search API, reads
    the JSON answer and prints a paginated summary.

    The embedding follows the source line by line.  Python objects that
    [json.loads] can produce are a small inductive type, dictionaries are
    finite maps, every [print] is an entry appended to the standard output
    of an explicit world, and the network is a function from requests to
    what [requests.get] does with them. *)

From Stdlib Require Import ZArith String Ascii List Lia.
From stdpp Require Import gmap list.

Local Open Scope Z_scope.

(** ** Python objects *)

Module Py.

(** What [json.loads] builds.  A Python [str] is a sequence of Unicode
    code points, [list N] here: [len] counts code points, not bytes.
    JSON numbers with a fraction or an exponent decode to Python floats;
    those are left out of this development, which covers [None], [bool],
    [int], [str], [list] and [dict]. *)
#[warnings="-register-all"]
Inductive value : Type :=
| PyNone
| PyBool (b : bool)
| PyInt (n : Z)
| PyStr (s : list N)
| PyList (l : list value)
| PyDict (m : gmap (list N) value).

(** ASCII literals of the source, read as code points. *)
Definition str_of (s : string) : list N :=
  map N_of_ascii (list_ascii_of_string s).

(** The exceptions of [requests.exceptions] that derive from
    [RequestException]. *)
Inductive request_exception : Type :=
| ConnectionError
| Timeout
| TooManyRedirects
| HTTPError (status_code : Z)
| OtherRequestException.

Inductive exn : Type :=
| TypeError
| AttributeError
| ZeroDivisionError
| JSONDecodeError
| RequestException (e : request_exception).

(** The value of an expression: an object, or the exception it raises. *)
Inductive result (A : Type) : Type :=
| Ok (a : A)
| Err (e : exn).
Arguments Ok {A} a.
Arguments Err {A} e.

Definition int_of_bool (b : bool) : Z := if b then 1 else 0.

(** [bool(x)], as used by [not x] and [if x]. *)
Definition truthy (x : value) : bool :=
  match x with
  | PyNone => false
  | PyBool b => b
  | PyInt n => negb (n =? 0)
  | PyStr s => negb (Nat.eqb (length s) 0)
  | PyList l => negb (Nat.eqb (length l) 0)
  | PyDict m => negb (Nat.eqb (size m) 0)
  end.

(** [len(x)] *)
Definition len (x : value) : result Z :=
  match x with
  | PyStr s => Ok (Z.of_nat (length s))
  | PyList l => Ok (Z.of_nat (length l))
  | PyDict m => Ok (Z.of_nat (size m))
  | PyNone | PyBool _ | PyInt _ => Err TypeError
  end.

(** The stop index of the slice [x[:stop]] on a sequence of length
    [n]: a negative [stop] counts from the end, and the result is
    clamped to [0 .. n]. *)
Definition slice_stop (n : nat) (stop : Z) : nat :=
  Z.to_nat (if stop <? 0 then Z.of_nat n + stop else stop).

(** [x[:stop]].  Slicing a dict raises ([TypeError] for an unhashable
    slice, [KeyError] from Python 3.12 on); the other objects are not
    subscriptable. *)
Definition slice_to (x : value) (stop : Z) : result value :=
  match x with
  | PyStr s => Ok (PyStr (take (slice_stop (length s) stop) s))
  | PyList l => Ok (PyList (take (slice_stop (length l) stop) l))
  | PyDict _ | PyNone | PyBool _ | PyInt _ => Err TypeError
  end.

(** [x + y] *)
Definition add (x y : value) : result value :=
  match x, y with
  | PyStr s, PyStr t => Ok (PyStr (s ++ t))
  | PyList l, PyList k => Ok (PyList (l ++ k))
  | PyInt a, PyInt b => Ok (PyInt (a + b))
  | PyInt a, PyBool b => Ok (PyInt (a + int_of_bool b))
  | PyBool a, PyInt b => Ok (PyInt (int_of_bool a + b))
  | PyBool a, PyBool b => Ok (PyInt (int_of_bool a + int_of_bool b))
  | _, _ => Err TypeError
  end.

(** [x + k] for an int [k]: the sum is an int when [x] is an int or a
    bool, and a [TypeError] for every other object. *)
Definition add_int (x : value) (k : Z) : result Z :=
  match add x (PyInt k) with
  | Ok (PyInt n) => Ok n
  | Ok _ => Err TypeError
  | Err e => Err e
  end.

(** [a // b] on ints: floor division, [ZeroDivisionError] on [b = 0]. *)
Definition floordiv (a b : Z) : result Z :=
  if b =? 0 then Err ZeroDivisionError else Ok (a / b).

(** [min(a, x)] for an int [a]: [x] if [x < a], else [a]; the
    comparison of an int with [None], a str, a list or a dict is a
    [TypeError]. *)
Definition min_int (a : Z) (x : value) : result value :=
  match x with
  | PyInt n => Ok (if n <? a then PyInt n else PyInt a)
  | PyBool b => Ok (if int_of_bool b <? a then PyBool b else PyInt a)
  | PyNone | PyStr _ | PyList _ | PyDict _ => Err TypeError
  end.

(** [x.get(key, default)]: only dicts have the method. *)
Definition get (x : value) (key : list N) (default : value) : result value :=
  match x with
  | PyDict m =>
      match m !! key with
      | Some v => Ok v
      | None => Ok default
      end
  | _ => Err AttributeError
  end.

(** The objects a [for] loop over [x] binds.  A dict yields its keys
    (in insertion order in Python; here in the order of the map). *)
Definition iter (x : value) : result (list value) :=
  match x with
  | PyList l => Ok l
  | PyStr s => Ok (map (fun c => PyStr [c]) s)
  | PyDict m => Ok (map (fun kv => PyStr (fst kv)) (map_to_list m))
  | PyNone | PyBool _ | PyInt _ => Err TypeError
  end.

(** [sep.join(parts)] *)
Fixpoint join (sep : list N) (parts : list (list N)) : list N :=
  match parts with
  | [] => []
  | [p] => p
  | p :: rest => p ++ sep ++ join sep rest
  end.

End Py.

Import Py.

(** ** Line 17: [truncate_text] *)

(** "..." *)
Definition ellipsis : list N := str_of "...".

Definition truncate_text (text : value) (max_length : Z) : result value :=
  match len text with
  | Err e => Err e
  | Ok n =>
      if n >? max_length then
        match slice_to text max_length with
        | Err e => Err e
        | Ok head => add head (PyStr ellipsis)
        end
      else Ok text
  end.

(** ** The process: standard output, the network, exit status *)

(** One entry per [print] call of the source, holding the objects its
    f-string interpolates. *)
Inductive line : Type :=
| RequestFailed (e : request_exception)          (* line 46 *)
| NoResults                                      (* line 55 *)
| Header (total_count : value) (start_index : Z) (end_index : value)
         (total_pages : Z) (page : Z)            (* line 62 *)
| Rule                                           (* lines 63 and 79 *)
| RepoName (name : value)                        (* line 74 *)
| RepoOwner (owner : value)                      (* line 75 *)
| RepoStars (stars : value)                      (* line 76 *)
| RepoDescription (description : value)          (* line 77 *)
| RepoUrl (html_url : value)                     (* line 78 *)
| NextPageHint (next_page : Z)                   (* line 83 *)
| PageMustBePositive                             (* line 97 *)
| Searching (query : list N).                    (* line 100 *)

Module Requests.

(** The arguments of [requests.get]. *)
Record request : Type := Request {
  url : list N;
  params : list (list N * value);
  headers : list (list N * list N);
  timeout : Z
}.

(** A [Response]: its status code and what [json()] decodes the body
    to, [None] when the body is not JSON. *)
Record response : Type := Response {
  status_code : Z;
  body : option value
}.

(** What one call of [requests.get] does: raise a [RequestException]
    (connection failure, timeout, ...) or return the final response. *)
Inductive get_result : Type :=
| GetRaises (e : request_exception)
| GetReturns (r : response).

(** The test of [Response.raise_for_status]: client errors (4xx) and
    server errors (5xx) raise [HTTPError], every other status code
    passes. *)
Definition is_error_status (code : Z) : bool :=
  (400 <=? code) && (code <? 600).

End Requests.

Import Requests.

Record world : Type := World {
  stdout : list line;
  requests_log : list request
}.

(** How a statement ends: it falls through with a value, [sys.exit]
    was called, or an exception propagates. *)
Inductive outcome (A : Type) : Type :=
| Returned (a : A)
| Exited (code : Z)
| Raised (e : exn).
Arguments Returned {A} a.
Arguments Exited {A} code.
Arguments Raised {A} e.

Definition prog (A : Type) : Type := world -> world * outcome A.

#[export] Instance prog_ret : MRet prog :=
  fun A (a : A) w => (w, Returned a).

#[export] Instance prog_bind : MBind prog :=
  fun A B (k : A -> prog B) (c : prog A) w =>
    match c w with
    | (w', Returned a) => k a w'
    | (w', Exited code) => (w', Exited code)
    | (w', Raised e) => (w', Raised e)
    end.

(** [print(...)]: the line is appended to the standard output.  The
    standard output is taken to accept every text; an encoding error of
    the stream is not part of this model. *)
Definition print (l : line) : prog unit :=
  fun w => (World (stdout w ++ [l]) (requests_log w), Returned tt).

Definition sys_exit {A} (code : Z) : prog A := fun w => (w, Exited code).

Definition raise {A} (e : exn) : prog A := fun w => (w, Raised e).

Definition eval {A} (r : result A) : prog A :=
  match r with
  | Ok a => mret a
  | Err e => raise e
  end.

(** [try: body / except requests.exceptions.RequestException as e: handler] *)
Definition try_except_RequestException {A}
    (body : prog A) (handler : request_exception -> prog A) : prog A :=
  fun w =>
    match body w with
    | (w', Raised (RequestException e)) => handler e w'
    | r => r
    end.

(** [for x in xs: body] *)
Fixpoint for_each {A} (xs : list A) (body : A -> prog unit) : prog unit :=
  match xs with
  | [] => mret tt
  | x :: rest => body x ;; for_each rest body
  end.

(** The exit status of the process: 0 when [main] returns, the argument
    of [sys.exit], and 1 when an exception reaches the top level. *)
Definition exit_status {A} (o : outcome A) : Z :=
  match o with
  | Returned _ => 0
  | Exited code => code
  | Raised _ => 1
  end.

Definition network_calls (w : world) : nat := length (requests_log w).

Definition initial_world : world := World [] [].

(** ** The program *)

(** Line 15 *)
Definition GITHUB_API_URL : list N :=
  str_of "https://api.github.com/search/repositories".

(** The default of [repo.get('description', ...)], line 67: the three
    code points U+65E0 U+63CF U+8FF0. *)
Definition no_description : list N := [26080%N; 25551%N; 36848%N].

Definition not_available : list N := str_of "N/A".

(** Lines 66 to 79, the body of the loop over the items. *)
Definition render_repo (repo : value) : prog unit :=
  name ← eval (get repo (str_of "full_name") (PyStr not_available));
  description ← eval (get repo (str_of "description") (PyStr no_description));
  description ← eval (truncate_text description 100);
  stars ← eval (get repo (str_of "stargazers_count") (PyInt 0));
  html_url ← eval (get repo (str_of "html_url") (PyStr not_available));
  owner_obj ← eval (get repo (str_of "owner") (PyDict ∅));
  owner ← eval (get owner_obj (str_of "login") (PyStr not_available));
  print (RepoName name) ;;
  print (RepoOwner owner) ;;
  print (RepoStars stars) ;;
  print (RepoDescription description) ;;
  print (RepoUrl html_url) ;;
  print Rule.

(** Line 52 *)
Definition total_pages_of (total_count : value) (per_page : Z) : result Z :=
  match add_int total_count per_page with
  | Err e => Err e
  | Ok n => floordiv (n - 1) per_page
  end.

(** Lines 50 to 83: what [search_github_repos] does with the decoded
    body. *)
Definition show_results (data : value) (page per_page : Z) : prog unit :=
  repos ← eval (get data (str_of "items") (PyList []));
  total_count ← eval (get data (str_of "total_count") (PyInt 0));
  total_pages ← eval (total_pages_of total_count per_page);
  if negb (truthy repos) then
    print NoResults
  else
    let start_index := (page - 1) * per_page + 1 in
    end_index ← eval (min_int (page * per_page) total_count);
    print (Header total_count start_index end_index total_pages page) ;;
    print Rule ;;
    items ← eval (iter repos);
    for_each items render_repo ;;
    if page <? total_pages then print (NextPageHint (page + 1)) else mret tt.

Section Program.

(** The remote side: what [requests.get] does with a request. *)
Variable network : request -> get_result.

Definition requests_get (req : request) : prog response :=
  fun w =>
    let w' := World (stdout w) (requests_log w ++ [req]) in
    match network req with
    | GetRaises e => (w', Raised (RequestException e))
    | GetReturns r => (w', Returned r)
    end.

Definition raise_for_status (r : response) : prog unit :=
  if is_error_status (status_code r)
  then raise (RequestException (HTTPError (status_code r)))
  else mret tt.

(** [response.json()] *)
Definition response_json (r : response) : prog value :=
  match body r with
  | Some v => mret v
  | None => raise JSONDecodeError
  end.

(** Lines 29 to 40 *)
Definition search_request (query : list N) (page per_page : Z) : request :=
  {| url := GITHUB_API_URL;
     params := [ (str_of "q", PyStr query);
                 (str_of "sort", PyStr (str_of "stars"));
                 (str_of "order", PyStr (str_of "desc"));
                 (str_of "page", PyInt page);
                 (str_of "per_page", PyInt per_page) ];
     headers := [ (str_of "Accept", str_of "application/vnd.github.v3+json");
                  (str_of "User-Agent", str_of "GitHub-Search-CLI") ];
     timeout := 10 |}.

(** Line 25 *)
Definition search_github_repos (query : list N) (page per_page : Z) : prog unit :=
  response ← try_except_RequestException
                (response ← requests_get (search_request query page per_page);
                 raise_for_status response ;;
                 mret response)
                (fun e => print (RequestFailed e) ;; sys_exit 1);
  data ← response_json response;
  show_results data page per_page.

(** What [parser.parse_args()] returns. *)
Record namespace : Type := Namespace {
  query : list (list N);
  page : Z
}.

(** Line 85, from line 91 on: [args] is the namespace that
    [parser.parse_args()] returned at line 89.  When [parse_args] ends
    the process itself (status 2 on a usage error, 0 after [--help]),
    the lines modelled here are not reached. *)
Definition main (args : namespace) : prog unit :=
  let query := join (str_of " ") (query args) in
  let page := page args in
  (if page <? 1 then print PageMustBePositive ;; sys_exit 1 else mret tt) ;;
  print (Searching query) ;;
  search_github_repos query page 10.

End Program.

(** ** Executions on sample inputs *)

Module Samples.

Definition fields (kvs : list (string * value)) : gmap (list N) value :=
  list_to_map (map (fun kv => (str_of (fst kv), snd kv)) kvs).

Definition dict (kvs : list (string * value)) : value := PyDict (fields kvs).

Definition text (s : string) : value := PyStr (str_of s).

(** An item with every field present. *)
Definition full_repo : value :=
  dict [ ("full_name", text "octocat/hello");
         ("description", text "A first repository");
         ("stargazers_count", PyInt 42);
         ("html_url", text "https://github.com/octocat/hello");
         ("owner", dict [("login", text "octocat")]) ]%string.

(** An item with only a name. *)
Definition bare_fields : gmap (list N) value :=
  fields [("full_name", text "a/b")]%string.

Definition bare_repo : value := PyDict bare_fields.

(** An item as the API sends it for a repository without description. *)
Definition null_description_fields : gmap (list N) value :=
  fields [ ("full_name", text "a/b"); ("description", PyNone) ]%string.

Definition null_description_repo : value := PyDict null_description_fields.

(** The body of an answer: a total count and a page of items. *)
Definition result_fields (total_count : Z) (items : list value)
    : gmap (list N) value :=
  fields [ ("total_count", PyInt total_count); ("items", PyList items) ]%string.

(** The body of an answer that has items and no total count. *)
Definition uncounted_fields (items : list value) : gmap (list N) value :=
  fields [ ("items", PyList items) ]%string.

Definition answers (status : Z) (data : value) : request -> get_result :=
  fun _ => GetReturns (Response status (Some data)).

(** An answer with status 300 and an empty page as its body. *)
Definition multiple_choices : request -> get_result :=
  answers 300 (PyDict (result_fields 0 [])).

(** An answer with status 200 whose body is not JSON. *)
Definition not_json : request -> get_result :=
  fun _ => GetReturns (Response 200 None).

(** Bodies that depart from the documented shape. *)
Definition null_count_fields : gmap (list N) value :=
  fields [ ("total_count", PyNone); ("items", PyList []) ]%string.



Definition refuses : request -> get_result :=
  fun _ => GetRaises ConnectionError.

Definition cli (page : Z) : namespace :=
  Namespace [str_of "python"; str_of "ml"] page.

End Samples.

(** ** Vocabulary of the statements *)

(** The lines of an item block, lines 74 to 79. *)
Definition is_repo_line (l : line) : bool :=
  match l with
  | RepoName _ | RepoOwner _ | RepoStars _ | RepoDescription _ | RepoUrl _
  | Rule => true
  | _ => false
  end.

(** The loop body completes on [repo], whatever was printed before. *)
Definition renders (repo : value) : Prop :=
  forall w, snd (render_repo repo w) = Returned tt.

(** A field that is missing, or present with the type the API documents. *)
Definition str_or_absent (field : option value) : bool :=
  match field with
  | None | Some (PyStr _) => true
  | Some _ => false
  end.

Definition dict_or_absent (field : option value) : bool :=
  match field with
  | None | Some (PyDict _) => true
  | Some _ => false
  end.

Definition int_or_absent (field : option value) : bool :=
  match field with
  | None | Some (PyInt _) => true
  | Some _ => false
  end.

(** The request goes through: [requests.get] returns a response whose
    status [raise_for_status] accepts and whose body decodes to [data]. *)
Definition answered (network : request -> get_result) (req : request)
    (data : value) : Prop :=
  exists r, network req = GetReturns r /\
            is_error_status (status_code r) = false /\
            body r = Some data.

(** Lines 74 to 79: the six lines of the block of an item with fields
    [fields], once its owner login and its truncated description are
    known. *)
Definition repo_block (fields : gmap (list N) value)
    (owner description : value) : list line :=
  [ RepoName (default (PyStr not_available) (fields !! str_of "full_name"));
    RepoOwner owner;
    RepoStars (default (PyInt 0) (fields !! str_of "stargazers_count"));
    RepoDescription description;
    RepoUrl (default (PyStr not_available) (fields !! str_of "html_url"));
    Rule ].

(** [block] is the block of [item]: the item is a dict, its description
    truncates, the login is read from its owner, and the six lines show
    its fields or their placeholders. *)
Definition rendered_as (item : value) (block : list line) : Prop :=
  exists fields owner description,
    item = PyDict fields /\
    truncate_text (default (PyStr no_description) (fields !! str_of "description")) 100
      = Ok description /\
    get (default (PyDict ∅) (fields !! str_of "owner")) (str_of "login")
        (PyStr not_available) = Ok owner /\
    block = repo_block fields owner description.

(** The world after more lines on the standard output. *)
Definition printed (w : world) (ls : list line) : world :=
  World (stdout w ++ ls) (requests_log w).

(** The world after one more network call. *)
Definition called (w : world) (req : request) : world :=
  World (stdout w) (requests_log w ++ [req]).

(** ** Laws of the monad *)

Section Laws.

Context {A B : Type}.

Lemma bind_eval_Ok (a : A) (k : A -> prog B) (w : world) :
  (eval (Ok a) ≫= k) w = k a w.
Proof. reflexivity. Qed.

Lemma bind_eval_Err (e : exn) (k : A -> prog B) (w : world) :
  (eval (Err e) ≫= k) w = (w, Raised e).
Proof. reflexivity. Qed.

Lemma bind_print (l : line) (k : unit -> prog B) (w : world) :
  (print l ≫= k) w = k tt (printed w [l]).
Proof. reflexivity. Qed.

Lemma bind_Returned (c : prog A) (k : A -> prog B) (w w' : world) (a : A) :
  c w = (w', Returned a) -> (c ≫= k) w = k a w'.
Proof. intros H. unfold mbind, prog_bind. rewrite H. reflexivity. Qed.

Lemma bind_Raised (c : prog A) (k : A -> prog B) (w w' : world) (e : exn) :
  c w = (w', Raised e) -> (c ≫= k) w = (w', Raised e).
Proof. intros H. unfold mbind, prog_bind. rewrite H. reflexivity. Qed.

Lemma bind_Exited (c : prog A) (k : A -> prog B) (w w' : world) (code : Z) :
  c w = (w', Exited code) -> (c ≫= k) w = (w', Exited code).
Proof. intros H. unfold mbind, prog_bind. rewrite H. reflexivity. Qed.

End Laws.

Lemma print_run (l : line) (w : world) :
  print l w = (printed w [l], Returned tt).
Proof. reflexivity. Qed.

(** One step of a sequence whose first statement returns or prints. *)
Ltac run_bind :=
  first [ rewrite bind_eval_Ok | rewrite bind_print ]; cbv beta.

Lemma printed_nil (w : world) : printed w [] = w.
Proof. destruct w as [out log]. unfold printed. cbn. by rewrite app_nil_r. Qed.

Lemma printed_app (w : world) (ls ks : list line) :
  printed (printed w ls) ks = printed w (ls ++ ks).
Proof. unfold printed. cbn. by rewrite <- app_assoc. Qed.

(** [dict.get] never raises: it is the lookup with a default. *)
Lemma get_dict (m : gmap (list N) value) (key : list N) (d : value) :
  get (PyDict m) key d = Ok (default d (m !! key)).
Proof. unfold get. by destruct (m !! key). Qed.

(** ** Pagination arithmetic *)

Lemma total_pages_of_int (t p : Z) :
  p <> 0 -> total_pages_of (PyInt t) p = Ok ((t + p - 1) / p).
Proof.
  intros Hp. unfold total_pages_of, add_int, add, floordiv.
  destruct (Z.eqb_spec p 0) as [->|_]; [lia | reflexivity].
Qed.

(** C1. For every page size p > 0 and total count t >= 0, line 52
    computes the ceiling of t / p, written floor((t + p - 1) / p): it is
    the one integer n with (n - 1) * p < t <= n * p. *)
Theorem total_pages_is_ceiling (t p : Z) :
  0 < p -> 0 <= t ->
  total_pages_of (PyInt t) p = Ok ((t + p - 1) / p) /\
  ((t + p - 1) / p - 1) * p < t <= (t + p - 1) / p * p.
Proof.
  intros Hp Ht. split; [apply total_pages_of_int; lia |].
  pose proof (Z.div_mod (t + p - 1) p ltac:(lia)) as Hdm.
  pose proof (Z.mod_pos_bound (t + p - 1) p Hp) as Hmod.
  nia.
Qed.

Lemma total_pages_is_ceiling_witness :
  total_pages_of (PyInt 11) 10 = Ok 2 /\ (2 - 1) * 10 < 11 <= 2 * 10.
Proof. apply (total_pages_is_ceiling 11 10); lia. Defined.

Example total_pages_0_10 : total_pages_of (PyInt 0) 10 = Ok 0.
Proof. reflexivity. Qed.

Example total_pages_10_10 : total_pages_of (PyInt 10) 10 = Ok 1.
Proof. reflexivity. Qed.

Example total_pages_11_10 : total_pages_of (PyInt 11) 10 = Ok 2.
Proof. reflexivity. Qed.

Example total_pages_100_10 : total_pages_of (PyInt 100) 10 = Ok 10.
Proof. reflexivity. Qed.

(** ** Truncation *)

Section Truncation.

Variable s : list N.

Lemma truncate_text_short :
  (length s <= 100)%nat -> truncate_text (PyStr s) 100 = Ok (PyStr s).
Proof.
  intros Hs. unfold truncate_text. cbn [len].
  destruct (Z.gtb_spec (Z.of_nat (length s)) 100) as [Hgt|_]; [lia | reflexivity].
Qed.

Lemma truncate_text_long :
  (100 < length s)%nat ->
  truncate_text (PyStr s) 100 = Ok (PyStr (take 100 s ++ ellipsis)).
Proof.
  intros Hs. unfold truncate_text. cbn [len].
  destruct (Z.gtb_spec (Z.of_nat (length s)) 100) as [_|Hle]; [| lia].
  reflexivity.
Qed.

End Truncation.

(** C2. [truncate_text(s, 100)] returns a description of at most 100
    characters unchanged, and the first 100 characters followed by the
    three-character marker "..." when it is longer; a description of 150
    characters becomes 100 characters plus the marker. *)
Theorem truncate_text_100 (s : list N) :
  ((length s <= 100)%nat -> truncate_text (PyStr s) 100 = Ok (PyStr s)) /\
  ((100 < length s)%nat ->
     truncate_text (PyStr s) 100 = Ok (PyStr (take 100 s ++ str_of "...")) /\
     length (take 100 s) = 100%nat /\
     length (take 100 s ++ str_of "...") = 103%nat).
Proof.
  split; [apply truncate_text_short |].
  intros Hs. split; [by apply truncate_text_long |].
  rewrite length_app, length_take.
  change (length (str_of "...")) with 3%nat. lia.
Qed.

Lemma truncate_text_100_witness :
  (100 < length (repeat 120%N 150))%nat /\
  truncate_text (PyStr (repeat 120%N 150)) 100
    = Ok (PyStr (repeat 120%N 100 ++ str_of "...")).
Proof.
  assert (Hlen : (100 < length (repeat 120%N 150))%nat)
    by (apply Nat.ltb_lt; vm_compute; reflexivity).
  split; [exact Hlen |].
  destruct (truncate_text_100 (repeat 120%N 150)) as [_ Hlong].
  destruct (Hlong Hlen) as [Heq _].
  rewrite Heq. reflexivity.
Defined.

(** ** The item block *)

Section ItemBlock.

Variable m : gmap (list N) value.

(** The objects the loop body binds before it prints. *)
Let name := default (PyStr not_available) (m !! str_of "full_name").
Let stars := default (PyInt 0) (m !! str_of "stargazers_count").
Let html_url := default (PyStr not_available) (m !! str_of "html_url").
Let raw_description := default (PyStr no_description) (m !! str_of "description").
Let owner_obj := default (PyDict ∅) (m !! str_of "owner").

Lemma render_repo_prints (description owner : value) (w : world) :
  truncate_text raw_description 100 = Ok description ->
  get owner_obj (str_of "login") (PyStr not_available) = Ok owner ->
  render_repo (PyDict m) w
    = (printed w [RepoName name; RepoOwner owner; RepoStars stars;
                  RepoDescription description; RepoUrl html_url; Rule],
       Returned tt).
Proof.
  intros Hd Ho. unfold render_repo. rewrite !get_dict.
  do 2 run_bind. fold raw_description. rewrite Hd.
  do 4 run_bind. fold owner_obj. rewrite Ho.
  do 6 run_bind. rewrite print_run, !printed_app. reflexivity.
Qed.

Lemma render_repo_bad_description (e : exn) (w : world) :
  truncate_text raw_description 100 = Err e ->
  render_repo (PyDict m) w = (w, Raised e).
Proof.
  intros Hd. unfold render_repo. rewrite !get_dict.
  do 2 run_bind. fold raw_description. rewrite Hd. apply bind_eval_Err.
Qed.

Lemma render_repo_bad_owner (description : value) (e : exn) (w : world) :
  truncate_text raw_description 100 = Ok description ->
  get owner_obj (str_of "login") (PyStr not_available) = Err e ->
  render_repo (PyDict m) w = (w, Raised e).
Proof.
  intros Hd Ho. unfold render_repo. rewrite !get_dict.
  do 2 run_bind. fold raw_description. rewrite Hd.
  do 4 run_bind. fold owner_obj. rewrite Ho. apply bind_eval_Err.
Qed.

End ItemBlock.

Lemma render_repo_not_dict (repo : value) (w : world) :
  (forall m, repo <> PyDict m) -> render_repo repo w = (w, Raised AttributeError).
Proof.
  intros Hrepo. destruct repo; try reflexivity. by destruct (Hrepo m).
Qed.

(** Whatever the item, the loop body only adds lines of an item block to
    the standard output, and makes no network call. *)
Lemma render_repo_output (repo : value) (w : world) :
  exists ls, fst (render_repo repo w) = printed w ls /\
             forallb is_repo_line ls = true.
Proof.
  destruct repo as [| b | n | s | l | m];
    try (exists []; rewrite render_repo_not_dict by discriminate;
         cbn [fst]; by rewrite printed_nil).
  destruct (truncate_text (default (PyStr no_description) (m !! str_of "description")) 100)
    as [d|e] eqn:Hd.
  - destruct (get (default (PyDict ∅) (m !! str_of "owner")) (str_of "login")
                (PyStr not_available)) as [o|e] eqn:Ho.
    + rewrite (render_repo_prints m d o w Hd Ho). eexists. split; reflexivity.
    + rewrite (render_repo_bad_owner m d e w Hd Ho).
      exists []. cbn [fst]. by rewrite printed_nil.
  - rewrite (render_repo_bad_description m e w Hd).
    exists []. cbn [fst]. by rewrite printed_nil.
Qed.

Lemma for_each_render_output (items : list value) (w : world) :
  exists ls, fst (for_each items render_repo w) = printed w ls /\
             forallb is_repo_line ls = true.
Proof.
  revert w. induction items as [|repo rest IH]; intros w.
  - exists []. cbn. by rewrite printed_nil.
  - cbn [for_each]. destruct (render_repo_output repo w) as (ls & Hw & Hls).
    destruct (render_repo repo w) as [w1 [[]|code|e]] eqn:Hrun; cbn [fst] in Hw; subst w1.
    + rewrite (bind_Returned _ _ _ _ _ Hrun).
      destruct (IH (printed w ls)) as (ks & Hw' & Hks).
      exists (ls ++ ks). rewrite Hw', printed_app. split; [done |].
      by rewrite forallb_app, Hls, Hks.
    + rewrite (bind_Exited _ _ _ _ _ Hrun). by exists ls.
    + rewrite (bind_Raised _ _ _ _ _ Hrun). by exists ls.
Qed.

Lemma for_each_renders (items : list value) (w : world) :
  Forall renders items ->
  snd (for_each items render_repo w) = Returned tt.
Proof.
  intros Hall. revert w. induction Hall as [|repo rest Hrepo _ IH]; intros w.
  - reflexivity.
  - cbn [for_each]. specialize (Hrepo w).
    destruct (render_repo repo w) as [w1 o] eqn:Hrun. cbn [snd] in Hrepo. subst o.
    rewrite (bind_Returned _ _ _ _ _ Hrun). apply IH.
Qed.

(** C3. An item in which an optional field is missing renders with the
    placeholder of that field: "N/A" for the full name, the URL and the
    owner login (whether the owner or only its login is missing), the
    no-description text for the description, 0 for the star count.  The
    item block is printed whole and nothing is raised, as long as the
    fields that are present have the documented types. *)
Theorem missing_fields_render_placeholders (m : gmap (list N) value) (w : world) :
  str_or_absent (m !! str_of "description") = true ->
  dict_or_absent (m !! str_of "owner") = true ->
  exists name owner stars description html_url,
    render_repo (PyDict m) w
      = (printed w [RepoName name; RepoOwner owner; RepoStars stars;
                    RepoDescription description; RepoUrl html_url; Rule],
         Returned tt) /\
    (m !! str_of "full_name" = None -> name = PyStr (str_of "N/A")) /\
    (m !! str_of "description" = None -> description = PyStr no_description) /\
    (m !! str_of "stargazers_count" = None -> stars = PyInt 0) /\
    (m !! str_of "html_url" = None -> html_url = PyStr (str_of "N/A")) /\
    (m !! str_of "owner" = None -> owner = PyStr (str_of "N/A")) /\
    (forall o, m !! str_of "owner" = Some (PyDict o) ->
               o !! str_of "login" = None -> owner = PyStr (str_of "N/A")) /\
    (forall v, m !! str_of "full_name" = Some v -> name = v) /\
    (forall v, m !! str_of "stargazers_count" = Some v -> stars = v) /\
    (forall v, m !! str_of "html_url" = Some v -> html_url = v) /\
    (forall o v, m !! str_of "owner" = Some (PyDict o) ->
                 o !! str_of "login" = Some v -> owner = v) /\
    (forall s, m !! str_of "description" = Some (PyStr s) ->
               truncate_text (PyStr s) 100 = Ok description).
Proof.
  intros Hdesc Howner.
  set (raw := default (PyStr no_description) (m !! str_of "description")).
  set (obj := default (PyDict ∅) (m !! str_of "owner")).
  assert (exists d, truncate_text raw 100 = Ok d) as [d Hd].
  { subst raw. destruct (m !! str_of "description") as [[]|]; try discriminate.
    - cbn [from_option id]. destruct (le_lt_dec (length s) 100) as [Hs|Hs].
      + eexists. by apply truncate_text_short.
      + eexists. by apply truncate_text_long.
    - by eexists. }
  assert (exists o, get obj (str_of "login") (PyStr not_available) = Ok o) as [o Ho].
  { subst obj. destruct (m !! str_of "owner") as [[]|]; try discriminate.
    - cbn [from_option id]. rewrite get_dict. by eexists.
    - by eexists. }
  exists (default (PyStr not_available) (m !! str_of "full_name")), o,
         (default (PyInt 0) (m !! str_of "stargazers_count")), d,
         (default (PyStr not_available) (m !! str_of "html_url")).
  split; [by apply render_repo_prints |].
  subst raw obj.
  repeat split.
  - by intros ->.
  - intros Hnone. rewrite Hnone in Hd.
    change (Ok (PyStr no_description) = Ok d) in Hd.
    injection Hd as <-. reflexivity.
  - by intros ->.
  - by intros ->.
  - intros Hnone. rewrite Hnone in Ho.
    change (Ok (PyStr not_available) = Ok o) in Ho.
    injection Ho as <-. reflexivity.
  - intros o' Hsome Hlogin. rewrite Hsome in Ho. cbn [from_option id] in Ho.
    rewrite get_dict, Hlogin in Ho. cbn [from_option id] in Ho.
    injection Ho as <-. reflexivity.
  - by intros v ->.
  - by intros v ->.
  - by intros v ->.
  - intros o' v Hsome Hlogin. rewrite Hsome in Ho. cbn [from_option id] in Ho.
    rewrite get_dict, Hlogin in Ho. cbn [from_option id] in Ho.
    injection Ho as <-. reflexivity.
  - intros s Hsome. by rewrite Hsome in Hd.
Qed.

Lemma missing_fields_render_placeholders_witness :
  str_or_absent (Samples.bare_fields !! str_of "description") = true /\
  dict_or_absent (Samples.bare_fields !! str_of "owner") = true /\
  exists description owner,
    render_repo Samples.bare_repo initial_world
      = (printed initial_world
           [RepoName (PyStr (str_of "a/b")); RepoOwner owner; RepoStars (PyInt 0);
            RepoDescription description; RepoUrl (PyStr (str_of "N/A")); Rule],
         Returned tt) /\
    description = PyStr no_description /\
    owner = PyStr (str_of "N/A").
Proof.
  split; [vm_compute; reflexivity |]. split; [vm_compute; reflexivity |].
  destruct (missing_fields_render_placeholders Samples.bare_fields initial_world)
    as (name & owner & stars & description & html_url & Hrun & _ & Hd & Hs & Hu
        & Ho & _ & Hn & _); [vm_compute; reflexivity | vm_compute; reflexivity |].
  exists description, owner.
  rewrite (Hn (PyStr (str_of "a/b"))) in Hrun by (vm_compute; reflexivity).
  rewrite Hs, Hu in Hrun by (vm_compute; reflexivity).
  split; [exact Hrun |].
  split; [apply Hd | apply Ho]; vm_compute; reflexivity.
Defined.

(** C9. A description that is present but null makes the loop body raise:
    the default of [get] applies to missing keys only, so [truncate_text]
    receives [None], whose length is a [TypeError].  Nothing of the item
    is printed. *)
Theorem null_description_raises (m : gmap (list N) value) (w : world) :
  m !! str_of "description" = Some PyNone ->
  get (PyDict m) (str_of "description") (PyStr no_description) = Ok PyNone /\
  len PyNone = Err TypeError /\
  truncate_text PyNone 100 = Err TypeError /\
  render_repo (PyDict m) w = (w, Raised TypeError).
Proof.
  intros Hnull. split; [by rewrite get_dict, Hnull |].
  split; [reflexivity |]. split; [reflexivity |].
  apply render_repo_bad_description. by rewrite Hnull.
Qed.

Lemma null_description_raises_witness :
  Samples.null_description_fields !! str_of "description" = Some PyNone /\
  render_repo Samples.null_description_repo initial_world
    = (initial_world, Raised TypeError).
Proof.
  split; [vm_compute; reflexivity |].
  apply (null_description_raises Samples.null_description_fields initial_world).
  vm_compute; reflexivity.
Defined.

(** ** Runs of [search_github_repos] and [main] *)

Lemma bind_unit_mret (c : prog unit) (w : world) : (c ;; mret tt) w = c w.
Proof.
  unfold mbind, prog_bind. destruct (c w) as [w' [[]|code|e]]; reflexivity.
Qed.

Section TryExcept.

Context {A : Type}.
Variables (body : prog A) (handler : request_exception -> prog A).

Lemma try_except_caught (e : request_exception) (w w' : world) :
  body w = (w', Raised (RequestException e)) ->
  try_except_RequestException body handler w = handler e w'.
Proof. intros H. unfold try_except_RequestException. by rewrite H. Qed.

Lemma try_except_returned (a : A) (w w' : world) :
  body w = (w', Returned a) ->
  try_except_RequestException body handler w = (w', Returned a).
Proof. intros H. unfold try_except_RequestException. by rewrite H. Qed.

End TryExcept.

Section Runs.

Variable network : request -> get_result.
Variables (q : list N) (page per_page : Z).

Let req := search_request q page per_page.

Lemma requests_get_run (w : world) :
  requests_get network req w
    = (called w req,
       match network req with
       | GetRaises e => Raised (RequestException e)
       | GetReturns r => Returned r
       end).
Proof. unfold requests_get. by destruct (network req). Qed.

Lemma search_get_raises (e : request_exception) (w : world) :
  network req = GetRaises e ->
  search_github_repos network q page per_page w
    = (printed (called w req) [RequestFailed e], Exited 1).
Proof.
  intros Hnet. unfold search_github_repos. apply bind_Exited.
  erewrite try_except_caught; [reflexivity |].
  apply bind_Raised. fold req. by rewrite requests_get_run, Hnet.
Qed.

Lemma search_status_raises (r : response) (w : world) :
  network req = GetReturns r ->
  is_error_status (status_code r) = true ->
  search_github_repos network q page per_page w
    = (printed (called w req) [RequestFailed (HTTPError (status_code r))],
       Exited 1).
Proof.
  intros Hnet Hst. unfold search_github_repos. apply bind_Exited.
  erewrite try_except_caught; [reflexivity |].
  erewrite bind_Returned; [| fold req; by rewrite requests_get_run, Hnet].
  apply bind_Raised. unfold raise_for_status. by rewrite Hst.
Qed.

Lemma search_answered (data : value) (w : world) :
  answered network req data ->
  search_github_repos network q page per_page w
    = show_results data page per_page (called w req).
Proof.
  intros (r & Hnet & Hst & Hbody). unfold search_github_repos.
  erewrite bind_Returned; cycle 1.
  { apply try_except_returned.
    erewrite bind_Returned; [| fold req; by rewrite requests_get_run, Hnet].
    erewrite bind_Returned; [reflexivity |].
    unfold raise_for_status. by rewrite Hst. }
  erewrite bind_Returned; [reflexivity |].
  unfold response_json. by rewrite Hbody.
Qed.

End Runs.

Lemma main_searches (network : request -> get_result) (args : namespace) (w : world) :
  1 <= page args ->
  main network args w
    = search_github_repos network (join (str_of " ") (query args)) (page args) 10
        (printed w [Searching (join (str_of " ") (query args))]).
Proof.
  intros Hpage. unfold main.
  destruct (Z.ltb_spec (page args) 1) as [Hlt|_]; [lia |].
  reflexivity.
Qed.

Section Results.

Variable m : gmap (list N) value.
Variables (page per_page : Z).

Let repos := default (PyList []) (m !! str_of "items").
Let total_count := default (PyInt 0) (m !! str_of "total_count").

Lemma show_results_empty (total_pages : Z) (w : world) :
  total_pages_of total_count per_page = Ok total_pages ->
  truthy repos = false ->
  show_results (PyDict m) page per_page w = (printed w [NoResults], Returned tt).
Proof.
  intros Htp Hrepos. unfold show_results. rewrite !get_dict.
  do 2 run_bind. fold total_count. rewrite Htp. run_bind.
  fold repos. rewrite Hrepos. reflexivity.
Qed.

Lemma show_results_items (total_pages : Z) (end_index : value)
    (items : list value) (w : world) :
  total_pages_of total_count per_page = Ok total_pages ->
  truthy repos = true ->
  min_int (page * per_page) total_count = Ok end_index ->
  iter repos = Ok items ->
  show_results (PyDict m) page per_page w
    = (for_each items render_repo ;;
       if page <? total_pages then print (NextPageHint (page + 1)) else mret tt)
        (printed w [Header total_count ((page - 1) * per_page + 1) end_index
                      total_pages page; Rule]).
Proof.
  intros Htp Hrepos Hend Hiter. unfold show_results. rewrite !get_dict.
  do 2 run_bind. fold total_count. rewrite Htp. run_bind.
  fold repos. rewrite Hrepos. cbn [negb]. cbv zeta.
  rewrite Hend. do 3 run_bind. rewrite Hiter. run_bind.
  rewrite printed_app. reflexivity.
Qed.

End Results.

(** ** The page guard of [main] *)

(** C4. A page argument below 1 (zero or negative) prints the usage
    error and ends the process with status 1 before any network call:
    the log of requests is as it was. *)
Theorem page_below_one_is_rejected
    (network : request -> get_result) (args : namespace) (w : world) :
  page args < 1 ->
  main network args w = (printed w [PageMustBePositive], Exited 1) /\
  network_calls (fst (main network args w)) = network_calls w /\
  exit_status (snd (main network args w)) = 1.
Proof.
  intros Hpage.
  assert (main network args w = (printed w [PageMustBePositive], Exited 1)) as Hrun.
  { unfold main. destruct (Z.ltb_spec (page args) 1) as [_|Hge]; [| lia].
    apply bind_Exited. erewrite bind_Returned by apply print_run. reflexivity. }
  rewrite Hrun. auto.
Qed.

Lemma page_below_one_is_rejected_witness :
  page (Samples.cli 0) < 1 /\
  main Samples.refuses (Samples.cli 0) initial_world
    = (printed initial_world [PageMustBePositive], Exited 1) /\
  network_calls (fst (main Samples.refuses (Samples.cli 0) initial_world))
    = network_calls initial_world /\
  exit_status (snd (main Samples.refuses (Samples.cli 0) initial_world)) = 1.
Proof.
  split; [reflexivity |].
  apply (page_below_one_is_rejected Samples.refuses (Samples.cli 0) initial_world).
  reflexivity.
Defined.

(** ** Request failures *)

(** C5, as the code has it.  When [requests.get] raises (connection
    failure, timeout, ...) or the response has a status from 400 to 599,
    the program prints the request-failed message and exits with status
    1, and the one request it made is the only one. *)
Theorem failed_request_is_fatal
    (network : request -> get_result) (args : namespace) (w : world) :
  1 <= page args ->
  (exists e, network (search_request (join (str_of " ") (query args))
                        (page args) 10) = GetRaises e) \/
  (exists r, network (search_request (join (str_of " ") (query args))
                        (page args) 10) = GetReturns r /\
             400 <= status_code r < 600) ->
  exists e,
    main network args w
      = (World (stdout w ++ [Searching (join (str_of " ") (query args));
                             RequestFailed e])
               (requests_log w ++ [search_request (join (str_of " ") (query args))
                                     (page args) 10]),
         Exited 1) /\
    network_calls (fst (main network args w)) = S (network_calls w) /\
    exit_status (snd (main network args w)) = 1.
Proof.
  intros Hpage Hfail.
  set (q := join (str_of " ") (query args)) in *.
  set (req := search_request q (page args) 10) in *.
  assert (exists e, main network args w
                    = (printed (called (printed w [Searching q]) req) [RequestFailed e],
                       Exited 1)) as [e Hrun].
  { rewrite main_searches by done. fold q.
    destruct Hfail as [[e Hnet] | (r & Hnet & Hst)].
    - exists e. by apply search_get_raises.
    - exists (HTTPError (status_code r)). apply search_status_raises; [done |].
      unfold is_error_status. apply andb_true_iff. split; lia. }
  exists e. rewrite Hrun. unfold printed, called, network_calls. cbn.
  rewrite <- app_assoc, length_app. cbn. split; [done |]. split; [lia | done].
Qed.

Lemma failed_request_is_fatal_witness :
  1 <= page (Samples.cli 1) /\
  exists e,
    main Samples.refuses (Samples.cli 1) initial_world
      = (World ([] ++ [Searching (join (str_of " ") (query (Samples.cli 1)));
                       RequestFailed e])
               ([] ++ [search_request (join (str_of " ") (query (Samples.cli 1)))
                         (page (Samples.cli 1)) 10]),
         Exited 1) /\
    network_calls (fst (main Samples.refuses (Samples.cli 1) initial_world)) = 1%nat /\
    exit_status (snd (main Samples.refuses (Samples.cli 1) initial_world)) = 1.
Proof.
  split; [reflexivity |].
  apply (failed_request_is_fatal Samples.refuses (Samples.cli 1) initial_world);
    [reflexivity |].
  left. exists ConnectionError. reflexivity.
Defined.

(** C5 as stated fails: status 300 is not a 2xx status, yet
    [raise_for_status] accepts it, so an answer with that status and a
    JSON body is read like a success; no error is printed and the process
    ends with status 0. *)
Lemma status_300_is_not_an_error :
  Samples.multiple_choices
      (search_request (str_of "python ml") 1 10)
    = GetReturns (Response 300 (Some (PyDict (Samples.result_fields 0 [])))) /\
  ~ (200 <= 300 < 300) /\
  main Samples.multiple_choices (Samples.cli 1) initial_world
    = (World [Searching (str_of "python ml"); NoResults]
             [search_request (str_of "python ml") 1 10],
       Returned tt) /\
  exit_status (snd (main Samples.multiple_choices (Samples.cli 1) initial_world)) = 0.
Proof.
  split; [reflexivity |]. split; [lia |]. split; vm_compute; reflexivity.
Qed.

(** ** Empty pages *)

(** C6, as the code has it.  When the decoded answer has no items (the
    list is empty or missing) and line 52 has computed a page count from
    its total count, the program prints the no-results message and
    nothing else: no header, no item block, no hint.  It returns, so the
    exit status is 0.  Line 52 runs before the emptiness test and takes
    a total count that is missing, an integer or a boolean. *)
Theorem empty_items_print_no_results
    (network : request -> get_result) (args : namespace)
    (m : gmap (list N) value) (tp : Z) (w : world) :
  1 <= page args ->
  answered network
    (search_request (join (str_of " ") (query args)) (page args) 10) (PyDict m) ->
  m !! str_of "items" = None \/ m !! str_of "items" = Some (PyList []) ->
  total_pages_of (default (PyInt 0) (m !! str_of "total_count")) 10 = Ok tp ->
  main network args w
    = (World (stdout w ++ [Searching (join (str_of " ") (query args)); NoResults])
             (requests_log w ++ [search_request (join (str_of " ") (query args))
                                   (page args) 10]),
       Returned tt) /\
  exit_status (snd (main network args w)) = 0.
Proof.
  intros Hpage Hnet Hitems Htp.
  assert (main network args w
          = (World (stdout w ++ [Searching (join (str_of " ") (query args)); NoResults])
                   (requests_log w ++ [search_request (join (str_of " ") (query args))
                                         (page args) 10]),
             Returned tt)) as Hrun.
  { rewrite main_searches by done.
    rewrite (search_answered _ _ _ _ _ _ Hnet).
    rewrite (show_results_empty m _ _ tp _ Htp).
    - unfold printed, called. cbn. by rewrite <- app_assoc.
    - by destruct Hitems as [-> | ->]. }
  by rewrite Hrun.
Qed.

Lemma empty_items_print_no_results_witness :
  1 <= page (Samples.cli 1) /\
  main (Samples.answers 200 (PyDict (Samples.result_fields 0 []))) (Samples.cli 1)
       initial_world
    = (World ([] ++ [Searching (join (str_of " ") (query (Samples.cli 1))); NoResults])
             ([] ++ [search_request (join (str_of " ") (query (Samples.cli 1)))
                       (page (Samples.cli 1)) 10]),
       Returned tt) /\
  exit_status
    (snd (main (Samples.answers 200 (PyDict (Samples.result_fields 0 [])))
               (Samples.cli 1) initial_world)) = 0.
Proof.
  split; [reflexivity |].
  apply (empty_items_print_no_results
           (Samples.answers 200 (PyDict (Samples.result_fields 0 [])))
           (Samples.cli 1) (Samples.result_fields 0 []) 0 initial_world).
  - reflexivity.
  - eexists. split; [reflexivity |]. split; reflexivity.
  - right. vm_compute. reflexivity.
  - vm_compute. reflexivity.
Defined.

(** C6 as stated fails: an answer with an empty item list and a null
    total count is a parsed response whose item list is empty, yet line
    52 raises [TypeError] before the emptiness test; the no-results
    message is not printed and the exit status is 1. *)
Lemma null_total_count_hides_no_results :
  Samples.null_count_fields !! str_of "items" = Some (PyList []) /\
  Samples.null_count_fields !! str_of "total_count" = Some PyNone /\
  main (Samples.answers 200 (PyDict Samples.null_count_fields)) (Samples.cli 1)
       initial_world
    = (World [Searching (str_of "python ml")]
             [search_request (str_of "python ml") 1 10],
       Raised TypeError) /\
  ~ In NoResults
       (stdout (fst (main (Samples.answers 200 (PyDict Samples.null_count_fields))
                          (Samples.cli 1) initial_world))) /\
  exit_status
    (snd (main (Samples.answers 200 (PyDict Samples.null_count_fields))
               (Samples.cli 1) initial_world)) = 1.
Proof.
  assert (main (Samples.answers 200 (PyDict Samples.null_count_fields)) (Samples.cli 1)
               initial_world
          = (World [Searching (str_of "python ml")]
                   [search_request (str_of "python ml") 1 10],
             Raised TypeError)) as Hrun by (vm_compute; reflexivity).
  split; [vm_compute; reflexivity |]. split; [vm_compute; reflexivity |].
  split; [exact Hrun |]. rewrite Hrun. cbn [fst snd stdout exit_status].
  split; [| reflexivity]. intros [Hin | []]. discriminate.
Qed.

(** ** Pages with items *)

Lemma nonempty_truthy (items : list value) :
  items <> [] -> truthy (PyList items) = true.
Proof. by destruct items. Qed.

(** Once line 52 has computed the page count, the [min] of line 60
    cannot raise: the total count is an int or a bool. *)
Lemma min_int_after_total_pages (total_count : value) (per_page a tp : Z) :
  total_pages_of total_count per_page = Ok tp ->
  exists end_index, min_int a total_count = Ok end_index.
Proof.
  destruct total_count; try discriminate; intros _; by eexists.
Qed.

Lemma min_int_int (a t : Z) : min_int a (PyInt t) = Ok (PyInt (Z.min a t)).
Proof.
  unfold min_int. destruct (Z.ltb_spec t a); do 2 f_equal; lia.
Qed.

(** C7. On a page with items the header shows the range
    startIndex = (page - 1) * pageSize + 1 to
    endIndex = min(page * pageSize, totalCount), for every page >= 1,
    pageSize > 0 and totalCount >= 0; it is the first line printed by
    [search_github_repos]. *)
Theorem header_shows_page_range
    (network : request -> get_result) (q : list N) (page per_page t : Z)
    (m : gmap (list N) value) (items : list value) (w : world) :
  1 <= page -> 0 < per_page -> 0 <= t ->
  answered network (search_request q page per_page) (PyDict m) ->
  m !! str_of "items" = Some (PyList items) -> items <> [] ->
  m !! str_of "total_count" = Some (PyInt t) ->
  exists rest,
    stdout (fst (search_github_repos network q page per_page w))
      = stdout w ++
        Header (PyInt t) ((page - 1) * per_page + 1)
               (PyInt (Z.min (page * per_page) t))
               ((t + per_page - 1) / per_page) page :: rest.
Proof.
  intros Hpage Hpp Ht Hnet Hitems Hne Hcount.
  rewrite (search_answered _ _ _ _ _ _ Hnet).
  erewrite show_results_items; cycle 1.
  - rewrite Hcount. apply total_pages_of_int. lia.
  - rewrite Hitems. by apply nonempty_truthy.
  - rewrite Hcount. apply min_int_int.
  - rewrite Hitems. reflexivity.
  - rewrite Hcount. cbn [from_option id].
    match goal with |- context [printed ?w0 ?hd] => set (w1 := printed w0 hd) end.
    destruct (for_each_render_output items w1) as (block & Hw & _).
    unfold mbind, prog_bind.
    destruct (for_each items render_repo w1) as [w2 [[]|code|e]];
      cbn [fst] in Hw; subst w2.
    + destruct (page <? (t + per_page - 1) / per_page).
      * eexists. rewrite print_run. cbn. rewrite <- !app_assoc. reflexivity.
      * eexists. cbn. rewrite <- !app_assoc. reflexivity.
    + eexists. cbn. rewrite <- !app_assoc. reflexivity.
    + eexists. cbn. rewrite <- !app_assoc. reflexivity.
Qed.

Lemma header_shows_page_range_witness :
  exists rest,
    stdout (fst (search_github_repos
                   (Samples.answers 200
                      (PyDict (Samples.result_fields 25 [Samples.full_repo])))
                   (str_of "python") 2 10 initial_world))
      = [] ++ Header (PyInt 25) ((2 - 1) * 10 + 1) (PyInt (Z.min (2 * 10) 25))
                     ((25 + 10 - 1) / 10) 2 :: rest.
Proof.
  apply (header_shows_page_range
           (Samples.answers 200 (PyDict (Samples.result_fields 25 [Samples.full_repo])))
           (str_of "python") 2 10 25
           (Samples.result_fields 25 [Samples.full_repo]) [Samples.full_repo]
           initial_world); try lia.
  - eexists. split; [reflexivity |]. split; reflexivity.
  - vm_compute. reflexivity.
  - discriminate.
  - vm_compute. reflexivity.
Defined.

Example header_page_2_of_25 :
  (2 - 1) * 10 + 1 = 11 /\ Z.min (2 * 10) 25 = 20 /\
  min_int (2 * 10) (PyInt 25) = Ok (PyInt 20).
Proof. repeat split. Qed.

Lemma repo_line_not_hint (block : list line) (n : Z) :
  forallb is_repo_line block = true -> ~ In (NextPageHint n) block.
Proof.
  intros Hblock Hin. rewrite forallb_forall in Hblock.
  by specialize (Hblock _ Hin).
Qed.

(** The run of lines 50 to 83 on a page whose items all render: header,
    rule, the item blocks, and the hint when line 82 holds. *)
Lemma show_results_rendered (m : gmap (list N) value) (page per_page tp : Z)
    (items : list value) (w : world) :
  m !! str_of "items" = Some (PyList items) -> items <> [] ->
  Forall renders items ->
  total_pages_of (default (PyInt 0) (m !! str_of "total_count")) per_page = Ok tp ->
  exists header block,
    show_results (PyDict m) page per_page w
      = (printed w (header :: Rule :: block ++
                    if page <? tp then [NextPageHint (page + 1)] else []),
         Returned tt) /\
    (forall n, header <> NextPageHint n) /\
    forallb is_repo_line block = true.
Proof.
  intros Hitems Hne Hall Htp.
  destruct (min_int_after_total_pages _ _ (page * per_page) _ Htp) as [e He].
  erewrite show_results_items; [| exact Htp | | exact He |].
  2: { rewrite Hitems. by apply nonempty_truthy. }
  2: { rewrite Hitems. reflexivity. }
  match goal with |- context [printed w ?hd] => set (w1 := printed w hd) end.
  destruct (for_each_render_output items w1) as (block & Hw & Hblock).
  pose proof (for_each_renders items w1 Hall) as Hret.
  destruct (for_each items render_repo w1) as [w2 o] eqn:Hrun.
  cbn [fst] in Hw. cbn [snd] in Hret. subst w2 o.
  rewrite (bind_Returned _ _ _ _ _ Hrun).
  eexists _, block. split.
  { subst w1. destruct (page <? tp).
    - rewrite print_run, !printed_app. reflexivity.
    - rewrite printed_app. unfold mret, prog_ret. by rewrite app_nil_r. }
  split; [discriminate | exact Hblock].
Qed.

(** C8, as the code has it.  On a page with items that are all
    rendered without an exception, the line suggesting page + 1 is
    printed if and only if the requested page is strictly below the page
    count computed at line 52; no other hint is printed.  The hint
    follows the loop, so an item that raises leaves it out. *)
Theorem next_page_hint_iff
    (network : request -> get_result) (q : list N) (page per_page tp : Z)
    (m : gmap (list N) value) (items : list value) (w : world) :
  answered network (search_request q page per_page) (PyDict m) ->
  m !! str_of "items" = Some (PyList items) -> items <> [] ->
  Forall renders items ->
  total_pages_of (default (PyInt 0) (m !! str_of "total_count")) per_page = Ok tp ->
  exists lines,
    search_github_repos network q page per_page w
      = (World (stdout w ++ lines)
               (requests_log w ++ [search_request q page per_page]),
         Returned tt) /\
    (In (NextPageHint (page + 1)) lines <-> page < tp) /\
    (forall n, In (NextPageHint n) lines -> n = page + 1).
Proof.
  intros Hnet Hitems Hne Hall Htp.
  rewrite (search_answered _ _ _ _ _ _ Hnet).
  destruct (show_results_rendered m page per_page tp items
              (called w (search_request q page per_page)) Hitems Hne Hall Htp)
    as (header & block & Hrun & Hheader & Hblock).
  rewrite Hrun. eexists. split; [reflexivity |].
  pose proof (repo_line_not_hint block) as Hnohint.
  destruct (Z.ltb_spec page tp) as [Hlt|Hge]; split.
  - split; [done |]. intros _. right. right. apply in_app_iff. right. by left.
  - intros n [Hin | [Hin | Hin]]; [by destruct (Hheader n) | discriminate |].
    apply in_app_iff in Hin as [Hin | [Hin | []]]; [by destruct (Hnohint n Hblock) |].
    congruence.
  - split; [| lia]. intros [Hin | [Hin | Hin]];
      [by destruct (Hheader (page + 1)) | discriminate |].
    rewrite app_nil_r in Hin. by destruct (Hnohint (page + 1) Hblock).
  - intros n [Hin | [Hin | Hin]]; [by destruct (Hheader n) | discriminate |].
    rewrite app_nil_r in Hin. by destruct (Hnohint n Hblock).
Qed.

Lemma full_repo_renders : renders Samples.full_repo.
Proof. intros w. vm_compute. reflexivity. Qed.

Lemma next_page_hint_iff_witness :
  exists lines,
    search_github_repos
        (Samples.answers 200 (PyDict (Samples.result_fields 25 [Samples.full_repo])))
        (str_of "python") 2 10 initial_world
      = (World ([] ++ lines) ([] ++ [search_request (str_of "python") 2 10]),
         Returned tt) /\
    (In (NextPageHint (2 + 1)) lines <-> 2 < 3) /\
    (forall n, In (NextPageHint n) lines -> n = 2 + 1).
Proof.
  apply (next_page_hint_iff
           (Samples.answers 200 (PyDict (Samples.result_fields 25 [Samples.full_repo])))
           (str_of "python") 2 10 3
           (Samples.result_fields 25 [Samples.full_repo]) [Samples.full_repo]
           initial_world).
  - eexists. split; [reflexivity |]. split; reflexivity.
  - vm_compute. reflexivity.
  - discriminate.
  - constructor; [exact full_repo_renders | constructor].
  - vm_compute. reflexivity.
Defined.

(** C8 as stated fails: a page with one item whose description is null,
    as the API sends it for a repository without description, is not
    empty and page 1 is below its 3 pages, yet the loop raises
    [TypeError] and the hint is not printed. *)
Lemma null_description_page_has_no_hint :
  Samples.result_fields 25 [Samples.null_description_repo] !! str_of "items"
    = Some (PyList [Samples.null_description_repo]) /\
  total_pages_of
    (default (PyInt 0)
       (Samples.result_fields 25 [Samples.null_description_repo]
          !! str_of "total_count")) 10 = Ok 3 /\
  1 < 3 /\
  search_github_repos
      (Samples.answers 200
         (PyDict (Samples.result_fields 25 [Samples.null_description_repo])))
      (str_of "python") 1 10 initial_world
    = (World [Header (PyInt 25) 1 (PyInt 10) 3 1; Rule]
             [search_request (str_of "python") 1 10],
       Raised TypeError) /\
  ~ In (NextPageHint (1 + 1)) [Header (PyInt 25) 1 (PyInt 10) 3 1; Rule].
Proof.
  split; [vm_compute; reflexivity |]. split; [vm_compute; reflexivity |].
  split; [lia |]. split; [vm_compute; reflexivity |].
  intros [Hin | [Hin | []]]; discriminate.
Qed.

(** ** Answers without a total count *)

(** A dict item that renders has the block its fields determine. *)
Lemma renders_rendered_as (item : value) :
  renders item ->
  exists block, rendered_as item block /\
                forall w, render_repo item w = (printed w block, Returned tt).
Proof.
  intros Hitem. pose proof (Hitem initial_world) as Hrun.
  destruct item as [| b | n | s | l | fields];
    try (rewrite render_repo_not_dict in Hrun by discriminate; discriminate).
  destruct (truncate_text (default (PyStr no_description)
                             (fields !! str_of "description")) 100)
    as [d|e] eqn:Hd; cycle 1.
  { by rewrite (render_repo_bad_description fields e _ Hd) in Hrun. }
  destruct (get (default (PyDict ∅) (fields !! str_of "owner")) (str_of "login")
              (PyStr not_available)) as [o|e] eqn:Ho; cycle 1.
  { by rewrite (render_repo_bad_owner fields d e _ Hd Ho) in Hrun. }
  exists (repo_block fields o d). split.
  - by exists fields, o, d.
  - intros w. by apply render_repo_prints.
Qed.

(** The loop over items that all render prints their blocks in order. *)
Lemma for_each_rendered_as (items : list value) (w : world) :
  Forall renders items ->
  exists blocks,
    Forall2 rendered_as items blocks /\
    for_each items render_repo w = (printed w (concat blocks), Returned tt).
Proof.
  intros Hall. revert w. induction Hall as [|item rest Hitem _ IH]; intros w.
  - exists []. split; [constructor |]. cbn. by rewrite printed_nil.
  - destruct (renders_rendered_as item Hitem) as (block & Hblock & Hrun).
    destruct (IH (printed w block)) as (blocks & Hblocks & Hrest).
    exists (block :: blocks). split; [by constructor |].
    cbn [for_each]. rewrite (bind_Returned _ _ _ _ _ (Hrun w)).
    rewrite Hrest, printed_app. reflexivity.
Qed.

(** C10, as the code has it.  When the answer has items but no total
    count, the count defaults to 0: the header announces 0 repositories,
    an end index 0 below the start index, and 0 pages, and no hint is
    printed, whatever the items are.  When the items all render without
    an exception, every one of them is rendered: the output is the
    header, the rule and the six-line block of each item in order, and
    the function returns. *)
Theorem missing_total_count_defaults_to_zero
    (network : request -> get_result) (q : list N) (page per_page : Z)
    (m : gmap (list N) value) (items : list value) (w : world) :
  1 <= page -> 0 < per_page ->
  answered network (search_request q page per_page) (PyDict m) ->
  m !! str_of "items" = Some (PyList items) -> items <> [] ->
  m !! str_of "total_count" = None ->
  (exists rest,
     stdout (fst (search_github_repos network q page per_page w))
       = stdout w ++ Header (PyInt 0) ((page - 1) * per_page + 1) (PyInt 0) 0 page
                     :: Rule :: rest /\
     forall n, ~ In (NextPageHint n) rest) /\
  0 < (page - 1) * per_page + 1 /\
  (Forall renders items ->
   exists blocks,
     Forall2 rendered_as items blocks /\
     length blocks = length items /\
     search_github_repos network q page per_page w
       = (World (stdout w ++
                 Header (PyInt 0) ((page - 1) * per_page + 1) (PyInt 0) 0 page
                 :: Rule :: concat blocks)
                (requests_log w ++ [search_request q page per_page]),
          Returned tt)).
Proof.
  intros Hpage Hpp Hnet Hitems Hne Hcount.
  assert (search_github_repos network q page per_page w
          = for_each items render_repo
              (World (stdout w ++ [Header (PyInt 0) ((page - 1) * per_page + 1)
                                          (PyInt 0) 0 page; Rule])
                     (requests_log w ++ [search_request q page per_page]))) as Hrun.
  { rewrite (search_answered _ _ _ _ _ _ Hnet).
    erewrite (show_results_items m page per_page 0 (PyInt 0) items); cycle 1.
    - rewrite Hcount. cbn [from_option id].
      rewrite total_pages_of_int by lia. f_equal. apply Z.div_small. lia.
    - rewrite Hitems. by apply nonempty_truthy.
    - rewrite Hcount. cbn [from_option id]. rewrite min_int_int.
      do 2 f_equal. nia.
    - rewrite Hitems. reflexivity.
    - rewrite Hcount. cbn [from_option id].
      destruct (Z.ltb_spec page 0) as [Hlt|_]; [lia |].
      apply bind_unit_mret. }
  rewrite Hrun.
  match goal with |- context [for_each items render_repo ?w0] => set (w1 := w0) end.
  split; [| split; [nia |]].
  - destruct (for_each_render_output items w1) as (block & Hw & Hblock).
    exists block. split.
    + rewrite Hw. subst w1. cbn. by rewrite <- app_assoc.
    + intros n. by apply repo_line_not_hint.
  - intros Hall.
    destruct (for_each_rendered_as items w1 Hall) as (blocks & Hblocks & Hloop).
    exists blocks. split; [exact Hblocks |].
    split; [symmetry; by eapply Forall2_length |].
    rewrite Hloop. subst w1. unfold printed. cbn. by rewrite <- app_assoc.
Qed.

Lemma missing_total_count_defaults_to_zero_witness :
  (exists rest,
     stdout (fst (search_github_repos
                    (Samples.answers 200
                       (PyDict (Samples.uncounted_fields [Samples.full_repo])))
                    (str_of "python") 1 10 initial_world))
       = [] ++ Header (PyInt 0) ((1 - 1) * 10 + 1) (PyInt 0) 0 1 :: Rule :: rest /\
     forall n, ~ In (NextPageHint n) rest) /\
  0 < (1 - 1) * 10 + 1 /\
  exists blocks,
    Forall2 rendered_as [Samples.full_repo] blocks /\
    length blocks = length [Samples.full_repo] /\
    search_github_repos
        (Samples.answers 200 (PyDict (Samples.uncounted_fields [Samples.full_repo])))
        (str_of "python") 1 10 initial_world
      = (World ([] ++ Header (PyInt 0) ((1 - 1) * 10 + 1) (PyInt 0) 0 1
                      :: Rule :: concat blocks)
               ([] ++ [search_request (str_of "python") 1 10]),
         Returned tt).
Proof.
  destruct (missing_total_count_defaults_to_zero
              (Samples.answers 200 (PyDict (Samples.uncounted_fields [Samples.full_repo])))
              (str_of "python") 1 10
              (Samples.uncounted_fields [Samples.full_repo]) [Samples.full_repo]
              initial_world) as (Hheader & Hstart & Hrendered); try lia.
  - eexists. split; [reflexivity |]. split; reflexivity.
  - vm_compute. reflexivity.
  - discriminate.
  - vm_compute. reflexivity.
  - split; [exact Hheader |]. split; [exact Hstart |].
    apply Hrendered. constructor; [exact full_repo_renders | constructor].
Defined.

(** C10 as stated fails in its last part: on a page without total count
    whose one item has a null description, the header and the rule are
    printed as the claim says, but the item is not rendered: the loop
    raises [TypeError] and no block follows. *)
Lemma uncounted_null_description_is_not_rendered :
  Samples.uncounted_fields [Samples.null_description_repo] !! str_of "items"
    = Some (PyList [Samples.null_description_repo]) /\
  Samples.uncounted_fields [Samples.null_description_repo] !! str_of "total_count"
    = None /\
  search_github_repos
      (Samples.answers 200
         (PyDict (Samples.uncounted_fields [Samples.null_description_repo])))
      (str_of "python") 1 10 initial_world
    = (World [Header (PyInt 0) 1 (PyInt 0) 0 1; Rule]
             [search_request (str_of "python") 1 10],
       Raised TypeError) /\
  forall block, ~ rendered_as Samples.null_description_repo block.
Proof.
  split; [vm_compute; reflexivity |]. split; [vm_compute; reflexivity |].
  split; [vm_compute; reflexivity |].
  intros block (fields & owner & description & Hitem & Hd & _).
  injection Hitem as <-. vm_compute in Hd. discriminate.
Qed.

(** ** Whole runs on the samples *)

(** A page of two items, the second with a null description: the first
    block is printed, then the [TypeError] ends the process with status
    1 and no hint, although page 1 is below the 3 pages of the header. *)
Example run_with_null_description :
  main (Samples.answers 200
          (PyDict (Samples.result_fields 25
                     [Samples.bare_repo; Samples.null_description_repo])))
       (Samples.cli 1) initial_world
  = (World [ Searching (str_of "python ml");
             Header (PyInt 25) 1 (PyInt 10) 3 1; Rule;
             RepoName (PyStr (str_of "a/b")); RepoOwner (PyStr (str_of "N/A"));
             RepoStars (PyInt 0); RepoDescription (PyStr no_description);
             RepoUrl (PyStr (str_of "N/A")); Rule ]
           [search_request (str_of "python ml") 1 10],
     Raised TypeError).
Proof. vm_compute. reflexivity. Qed.

Example run_page_2_of_25 :
  main (Samples.answers 200 (PyDict (Samples.result_fields 25 [Samples.full_repo])))
       (Samples.cli 2) initial_world
  = (World [ Searching (str_of "python ml");
             Header (PyInt 25) 11 (PyInt 20) 3 2; Rule;
             RepoName (PyStr (str_of "octocat/hello"));
             RepoOwner (PyStr (str_of "octocat"));
             RepoStars (PyInt 42);
             RepoDescription (PyStr (str_of "A first repository"));
             RepoUrl (PyStr (str_of "https://github.com/octocat/hello")); Rule;
             NextPageHint 3 ]
           [search_request (str_of "python ml") 2 10],
     Returned tt).
Proof. vm_compute. reflexivity. Qed.

Example run_not_found :
  main (Samples.answers 404 PyNone) (Samples.cli 1) initial_world
  = (World [ Searching (str_of "python ml"); RequestFailed (HTTPError 404) ]
           [search_request (str_of "python ml") 1 10],
     Exited 1).
Proof. vm_compute. reflexivity. Qed.

(** * Further properties of the code *)

(** ** [truncate_text] for any bound *)

Lemma truncate_text_str (s : list N) (n : Z) :
  truncate_text (PyStr s) n
  = Ok (PyStr (if Z.of_nat (length s) >? n
               then take (slice_stop (length s) n) s ++ ellipsis
               else s)).
Proof.
  unfold truncate_text. cbn [len slice_to add].
  by destruct (Z.of_nat (length s) >? n).
Qed.

Lemma slice_stop_nonneg (len : nat) (n : Z) :
  0 <= n -> slice_stop len n = Z.to_nat n.
Proof.
  intros Hn. unfold slice_stop. by destruct (Z.ltb_spec n 0); [lia |].
Qed.

Lemma slice_stop_neg (len : nat) (n : Z) :
  n < 0 -> slice_stop len n = (len - Z.to_nat (- n))%nat.
Proof.
  intros Hn. unfold slice_stop. destruct (Z.ltb_spec n 0); lia.
Qed.

Lemma ellipsis_length : length ellipsis = 3%nat.
Proof. reflexivity. Qed.

(** X1. Truncating twice with the same non-negative bound is truncating
    once: the marker added by the first call is cut off and added again
    by the second. *)
Theorem truncate_text_idempotent (s : list N) (n : Z) (r : value) :
  0 <= n ->
  truncate_text (PyStr s) n = Ok r ->
  truncate_text r n = Ok r.
Proof.
  intros Hn. rewrite truncate_text_str. intros [= <-].
  destruct (Z.gtb_spec (Z.of_nat (length s)) n) as [Hlong|Hshort].
  - rewrite truncate_text_str, !slice_stop_nonneg by done.
    rewrite length_app, ellipsis_length, length_take.
    destruct (Z.gtb_spec (Z.of_nat (Z.to_nat n `min` length s + 3)) n); [| lia].
    rewrite take_app_length'; [done |]. rewrite length_take. lia.
  - rewrite truncate_text_str.
    destruct (Z.gtb_spec (Z.of_nat (length s)) n); [lia | done].
Qed.

Lemma truncate_text_idempotent_witness :
  0 <= 2 /\
  truncate_text (PyStr (str_of "abcdef")) 2 = Ok (PyStr (str_of "ab...")) /\
  truncate_text (PyStr (str_of "ab...")) 2 = Ok (PyStr (str_of "ab...")).
Proof.
  split; [lia |]. split; [reflexivity |].
  apply (truncate_text_idempotent (str_of "abcdef") 2); [lia | reflexivity].
Defined.

(** X2. For a non-negative bound n the result on a str is a str of at
    most n + 3 code points that agrees with the input on its first n
    code points. *)
Theorem truncate_text_bounded (s : list N) (n : Z) :
  0 <= n ->
  exists r,
    truncate_text (PyStr s) n = Ok (PyStr r) /\
    (length r <= Z.to_nat n + 3)%nat /\
    take (Z.to_nat n) r = take (Z.to_nat n) s.
Proof.
  intros Hn. rewrite truncate_text_str, slice_stop_nonneg by done.
  eexists. split; [reflexivity |].
  destruct (Z.gtb_spec (Z.of_nat (length s)) n) as [Hlong|Hshort].
  - rewrite length_app, ellipsis_length, length_take. split; [lia |].
    rewrite take_app_le by (rewrite length_take; lia). apply take_idemp.
  - split; [lia | done].
Qed.

Lemma truncate_text_bounded_witness :
  exists r,
    truncate_text (PyStr (str_of "abcdef")) 2 = Ok (PyStr r) /\
    (length r <= Z.to_nat 2 + 3)%nat /\
    take (Z.to_nat 2) r = take (Z.to_nat 2) (str_of "abcdef").
Proof. apply (truncate_text_bounded (str_of "abcdef") 2). lia. Defined.

(** X3. Truncation can lengthen: a str that exceeds the bound by one or
    two code points comes back longer than it was, since the marker has
    three. *)
Theorem truncate_text_can_lengthen (s : list N) (n : Z) :
  0 <= n ->
  n < Z.of_nat (length s) < n + 3 ->
  exists r,
    truncate_text (PyStr s) n = Ok (PyStr r) /\
    (length s < length r)%nat.
Proof.
  intros Hn Hs. rewrite truncate_text_str, slice_stop_nonneg by done.
  eexists. split; [reflexivity |].
  destruct (Z.gtb_spec (Z.of_nat (length s)) n); [| lia].
  rewrite length_app, ellipsis_length, length_take. lia.
Qed.

Lemma truncate_text_can_lengthen_witness :
  exists r,
    truncate_text (PyStr (repeat 120%N 101)) 100 = Ok (PyStr r) /\
    (length (repeat 120%N 101) < length r)%nat.
Proof.
  apply (truncate_text_can_lengthen (repeat 120%N 101) 100); [lia |].
  rewrite repeat_length. lia.
Defined.

(** X4. With a negative bound every str, the empty one included, gets
    the marker, after the slice has dropped its last -n code points. *)
Theorem truncate_text_negative_bound (s : list N) (n : Z) :
  n < 0 ->
  truncate_text (PyStr s) n
  = Ok (PyStr (take (length s - Z.to_nat (- n)) s ++ str_of "...")).
Proof.
  intros Hn. rewrite truncate_text_str, slice_stop_neg by done.
  destruct (Z.gtb_spec (Z.of_nat (length s)) n); [done | lia].
Qed.

Lemma truncate_text_negative_bound_witness :
  truncate_text (PyStr (str_of "abcdef")) (-2) = Ok (PyStr (str_of "abcd...")) /\
  truncate_text (PyStr []) (-2) = Ok (PyStr (str_of "...")).
Proof.
  split.
  - apply (truncate_text_negative_bound (str_of "abcdef") (-2)). lia.
  - apply (truncate_text_negative_bound [] (-2)). lia.
Defined.

(** X5. [truncate_text] raises exactly on the objects without a length
    ([None], bools, ints) and on the lists and dicts that have more
    elements than the bound; a str never raises, and a list or dict
    within the bound is returned as it is. *)
Theorem truncate_text_raises_iff (text : value) (n : Z) :
  ((exists e, truncate_text text n = Err e) <->
   match text with
   | PyNone | PyBool _ | PyInt _ => True
   | PyStr _ => False
   | PyList l => n < Z.of_nat (length l)
   | PyDict m => n < Z.of_nat (size m)
   end) /\
  ((forall e, truncate_text text n <> Err e) ->
   (forall s, text <> PyStr s) ->
   truncate_text text n = Ok text).
Proof.
  destruct text as [| b | k | s | l | m]; unfold truncate_text; cbn [len slice_to add].
  - split; [split; [done | by eexists] | intros H; by destruct (H TypeError)].
  - split; [split; [done | by eexists] | intros H; by destruct (H TypeError)].
  - split; [split; [done | by eexists] | intros H; by destruct (H TypeError)].
  - split; [| intros _ H; by destruct (H s)].
    split; [| done]. intros [e He]. by destruct (Z.of_nat (length s) >? n).
  - destruct (Z.gtb_spec (Z.of_nat (length l)) n) as [Hlong|Hshort].
    + split; [split; [lia | by eexists] | intros H; by destruct (H TypeError)].
    + split; [split; [by intros [e He] | lia] | done].
  - destruct (Z.gtb_spec (Z.of_nat (size m)) n) as [Hlong|Hshort].
    + split; [split; [lia | by eexists] | intros H; by destruct (H TypeError)].
    + split; [split; [by intros [e He] | lia] | done].
Qed.

(** ** The loop over the items *)

(** The loop body prints its six lines after the last expression that
    can raise: a block is printed whole or not at all. *)
Lemma render_repo_cases (repo : value) (w : world) :
  (exists name owner stars description html_url,
     render_repo repo w
       = (printed w [RepoName name; RepoOwner owner; RepoStars stars;
                     RepoDescription description; RepoUrl html_url; Rule],
          Returned tt)) \/
  (exists e, render_repo repo w = (w, Raised e)).
Proof.
  destruct repo as [| b | n | s | l | m];
    try (right; exists AttributeError; by apply render_repo_not_dict).
  destruct (truncate_text (default (PyStr no_description) (m !! str_of "description")) 100)
    as [d|e] eqn:Hd.
  - destruct (get (default (PyDict ∅) (m !! str_of "owner")) (str_of "login")
                (PyStr not_available)) as [o|e] eqn:Ho.
    + left. do 5 eexists. by apply render_repo_prints.
    + right. exists e. by eapply render_repo_bad_owner.
  - right. exists e. by apply render_repo_bad_description.
Qed.

Lemma for_each_cons_returned (repo : value) (rest : list value) (w w1 : world) :
  render_repo repo w = (w1, Returned tt) ->
  for_each (repo :: rest) render_repo w = for_each rest render_repo w1.
Proof.
  intros Hrun. cbn [for_each]. by rewrite (bind_Returned _ _ _ _ _ Hrun).
Qed.

Lemma for_each_cons_raised (repo : value) (rest : list value) (w w1 : world) (e : exn) :
  render_repo repo w = (w1, Raised e) ->
  for_each (repo :: rest) render_repo w = (w1, Raised e).
Proof.
  intros Hrun. cbn [for_each]. by rewrite (bind_Raised _ _ _ _ _ Hrun).
Qed.

(** The loop never ends the process by itself: it returns or an
    exception of the body propagates. *)
Lemma for_each_render_outcome (items : list value) (w : world) :
  snd (for_each items render_repo w) = Returned tt \/
  exists e, snd (for_each items render_repo w) = Raised e.
Proof.
  revert w. induction items as [|repo rest IH]; intros w; [by left |].
  destruct (render_repo_cases repo w) as [(? & ? & ? & ? & ? & Hrun) | (e & Hrun)].
  - rewrite (for_each_cons_returned _ _ _ _ Hrun). apply IH.
  - rewrite (for_each_cons_raised _ _ _ _ _ Hrun). right. by exists e.
Qed.

(** X7. An item whose owner is present without being a dict ([null], a
    string, ...) makes the loop body raise before anything of the item
    is printed: the login is read at line 72, ahead of the prints.  The
    exception is [AttributeError] when the description truncates. *)
Theorem non_dict_owner_raises (m : gmap (list N) value) (v : value) (w : world) :
  m !! str_of "owner" = Some v ->
  (forall o, v <> PyDict o) ->
  exists e,
    render_repo (PyDict m) w = (w, Raised e) /\
    ((exists d, truncate_text (default (PyStr no_description)
                                 (m !! str_of "description")) 100 = Ok d) ->
     e = AttributeError).
Proof.
  intros Howner Hnot.
  assert (get (default (PyDict ∅) (m !! str_of "owner")) (str_of "login")
            (PyStr not_available) = Err AttributeError) as Ho.
  { rewrite Howner. cbn [from_option id]. destruct v; try reflexivity.
    by destruct (Hnot m0). }
  destruct (truncate_text (default (PyStr no_description) (m !! str_of "description")) 100)
    as [d|e] eqn:Hd.
  - exists AttributeError. split; [| done]. by eapply render_repo_bad_owner.
  - exists e. split; [by apply render_repo_bad_description |]. by intros [d Hd'].
Qed.

Lemma non_dict_owner_raises_witness :
  exists e,
    render_repo
      (PyDict (Samples.fields [("full_name", Samples.text "a/b");
                               ("owner", PyNone)]%string))
      initial_world = (initial_world, Raised e) /\
    ((exists d, truncate_text
                  (default (PyStr no_description)
                     (Samples.fields [("full_name", Samples.text "a/b");
                                      ("owner", PyNone)]%string
                        !! str_of "description")) 100 = Ok d) ->
     e = AttributeError).
Proof.
  apply (non_dict_owner_raises
           (Samples.fields [("full_name", Samples.text "a/b"); ("owner", PyNone)]%string)
           PyNone initial_world).
  - vm_compute. reflexivity.
  - discriminate.
Defined.

(** X8. The loop stops at the first item that raises: the items before
    it are rendered, the exception propagates, and no later item is
    looked at. *)
Theorem loop_stops_at_first_failure
    (good : list value) (bad : value) (rest : list value) (e : exn) (w : world) :
  Forall renders good ->
  (forall w', snd (render_repo bad w') = Raised e) ->
  for_each (good ++ bad :: rest) render_repo w
  = (fst (for_each good render_repo w), Raised e).
Proof.
  intros Hgood Hbad. revert w.
  induction Hgood as [|repo good' Hrepo _ IH]; intros w.
  - cbn [app for_each fst]. specialize (Hbad w).
    destruct (render_repo_cases bad w) as [(? & ? & ? & ? & ? & Hrun) | (e' & Hrun)];
      rewrite Hrun in Hbad; cbn [snd] in Hbad; [discriminate |].
    injection Hbad as ->. by apply bind_Raised.
  - cbn [app]. specialize (Hrepo w).
    destruct (render_repo repo w) as [w1 o] eqn:Hrun. cbn [snd] in Hrepo. subst o.
    rewrite !(for_each_cons_returned _ _ _ _ Hrun). apply IH.
Qed.

Lemma null_description_never_renders (w : world) :
  snd (render_repo Samples.null_description_repo w) = Raised TypeError.
Proof.
  unfold Samples.null_description_repo.
  rewrite (render_repo_bad_description Samples.null_description_fields TypeError w);
    [done |]. vm_compute. reflexivity.
Qed.

Lemma loop_stops_at_first_failure_witness :
  for_each ([Samples.full_repo] ++ Samples.null_description_repo :: [Samples.bare_repo])
           render_repo initial_world
  = (fst (for_each [Samples.full_repo] render_repo initial_world), Raised TypeError).
Proof.
  apply (loop_stops_at_first_failure [Samples.full_repo] Samples.null_description_repo
           [Samples.bare_repo] TypeError initial_world).
  - constructor; [exact full_repo_renders | constructor].
  - exact null_description_never_renders.
Defined.

(** ** Every run of lines 50 to 83 *)

Section EveryResult.

Variable m : gmap (list N) value.
Variables (page per_page : Z).

Let repos := default (PyList []) (m !! str_of "items").
Let total_count := default (PyInt 0) (m !! str_of "total_count").

Lemma show_results_bad_count (e : exn) (w : world) :
  total_pages_of total_count per_page = Err e ->
  show_results (PyDict m) page per_page w = (w, Raised e).
Proof.
  intros Htp. unfold show_results. rewrite !get_dict.
  do 2 run_bind. fold total_count. rewrite Htp. apply bind_eval_Err.
Qed.

Lemma show_results_bad_items (total_pages : Z) (end_index : value)
    (e : exn) (w : world) :
  total_pages_of total_count per_page = Ok total_pages ->
  truthy repos = true ->
  min_int (page * per_page) total_count = Ok end_index ->
  iter repos = Err e ->
  show_results (PyDict m) page per_page w
    = (printed w [Header total_count ((page - 1) * per_page + 1) end_index
                    total_pages page; Rule],
       Raised e).
Proof.
  intros Htp Hrepos Hend Hiter. unfold show_results. rewrite !get_dict.
  do 2 run_bind. fold total_count. rewrite Htp. run_bind.
  fold repos. rewrite Hrepos. cbn [negb]. cbv zeta.
  rewrite Hend. do 3 run_bind. rewrite Hiter, printed_app. apply bind_eval_Err.
Qed.

End EveryResult.

Lemma show_results_not_dict (data : value) (page per_page : Z) (w : world) :
  (forall m, data <> PyDict m) ->
  show_results data page per_page w = (w, Raised AttributeError).
Proof.
  intros Hdata. destruct data; try reflexivity. by destruct (Hdata m).
Qed.

(** What lines 50 to 83 can do, whatever the decoded body: they print
    lines other than the request-failed message, make no network call,
    and return or raise. *)
Lemma show_results_run (data : value) (page per_page : Z) (w : world) :
  exists ls o,
    show_results data page per_page w = (printed w ls, o) /\
    (forall e, ~ In (RequestFailed e) ls) /\
    (o = Returned tt \/ exists e, o = Raised e).
Proof.
  destruct data as [| b | n | s | l | m];
    try (exists [], (Raised AttributeError);
         rewrite show_results_not_dict, printed_nil by discriminate;
         split; [done |]; split; [by intros e [] | right; by eexists]).
  destruct (total_pages_of (default (PyInt 0) (m !! str_of "total_count")) per_page)
    as [tp|e] eqn:Htp; cycle 1.
  { exists [], (Raised e). rewrite (show_results_bad_count m page per_page e w Htp).
    rewrite printed_nil. split; [done |]. split; [by intros ? [] | right; by eexists]. }
  destruct (truthy (default (PyList []) (m !! str_of "items"))) eqn:Hrepos; cycle 1.
  { exists [NoResults], (Returned tt).
    rewrite (show_results_empty m page per_page tp w Htp Hrepos).
    split; [done |]. split; [| by left]. by intros e [|[]]. }
  destruct (min_int_after_total_pages _ _ (page * per_page) _ Htp) as [e He].
  destruct (iter (default (PyList []) (m !! str_of "items"))) as [items|e'] eqn:Hiter;
    cycle 1.
  { eexists _, (Raised e').
    rewrite (show_results_bad_items m page per_page tp e e' w Htp Hrepos He Hiter).
    split; [done |]. split; [| right; by eexists]. by intros ? [|[|[]]]. }
  rewrite (show_results_items m page per_page tp e items w Htp Hrepos He Hiter).
  match goal with |- context [printed w ?hd] => set (header := hd) end.
  destruct (for_each_render_output items (printed w header)) as (block & Hw & Hblock).
  assert (forall e0, ~ In (RequestFailed e0) block) as Hnofail.
  { intros e0 Hin. rewrite forallb_forall in Hblock. by specialize (Hblock _ Hin). }
  destruct (for_each_render_outcome items (printed w header)) as [Ho | [e0 Ho]];
    destruct (for_each items render_repo (printed w header)) as [w2 o] eqn:Hrun;
    cbn [fst] in Hw; cbn [snd] in Ho; subst w2 o.
  - rewrite (bind_Returned _ _ _ _ _ Hrun), printed_app.
    destruct (page <? tp).
    + rewrite print_run, printed_app. eexists _, _. split; [done |].
      split; [| by left]. intros e0 Hin. subst header.
      destruct Hin as [|[|Hin]]; [done | done |].
      apply in_app_iff in Hin as [Hin | [|[]]]; [by destruct (Hnofail e0) | done].
    + eexists _, _. split; [done |]. split; [| by left].
      intros e0 Hin. subst header.
      destruct Hin as [|[|Hin]]; [done | done | by destruct (Hnofail e0)].
  - rewrite (bind_Raised _ _ _ _ _ Hrun), printed_app.
    eexists _, _. split; [done |]. split; [| right; by eexists].
    intros e1 Hin. subst header.
    destruct Hin as [|[|Hin]]; [done | done | by destruct (Hnofail e1)].
Qed.

(** ** Every run of [search_github_repos] and [main] *)

Section EveryRun.

Variable network : request -> get_result.

Lemma search_bad_json (q : list N) (page per_page : Z) (r : response) (w : world) :
  network (search_request q page per_page) = GetReturns r ->
  is_error_status (status_code r) = false ->
  body r = None ->
  search_github_repos network q page per_page w
    = (called w (search_request q page per_page), Raised JSONDecodeError).
Proof.
  intros Hnet Hst Hbody. unfold search_github_repos.
  erewrite bind_Returned; cycle 1.
  { apply try_except_returned.
    erewrite bind_Returned; [| by rewrite requests_get_run, Hnet].
    erewrite bind_Returned; [reflexivity |].
    unfold raise_for_status. by rewrite Hst. }
  apply bind_Raised. unfold response_json. by rewrite Hbody.
Qed.

(** The request fails: [requests.get] raises, or the status is one that
    [raise_for_status] rejects. *)
Lemma search_run (q : list N) (page per_page : Z) (w : world) :
  let req := search_request q page per_page in
  ((exists e, network req = GetRaises e) \/
   (exists r, network req = GetReturns r /\ is_error_status (status_code r) = true)) /\
  (exists e, search_github_repos network q page per_page w
             = (printed (called w req) [RequestFailed e], Exited 1)) \/
  ~ ((exists e, network req = GetRaises e) \/
     (exists r, network req = GetReturns r /\ is_error_status (status_code r) = true)) /\
  (exists ls o,
     search_github_repos network q page per_page w = (printed (called w req) ls, o) /\
     (forall e, ~ In (RequestFailed e) ls) /\
     (o = Returned tt \/ exists e, o = Raised e)).
Proof.
  intros req. destruct (network req) as [e|r] eqn:Hnet.
  - left. split; [left; by exists e |]. exists e. by apply search_get_raises.
  - destruct (is_error_status (status_code r)) eqn:Hst.
    + left. split; [right; by exists r |]. eexists. by apply search_status_raises.
    + right. split.
      { intros [[e He] | (r' & Hr' & Hst')]; [done |]. congruence. }
      destruct (body r) as [data|] eqn:Hbody.
      * rewrite (search_answered network q page per_page data w)
          by (exists r; auto).
        apply show_results_run.
      * rewrite (search_bad_json q page per_page r w Hnet Hst Hbody).
        exists [], (Raised JSONDecodeError). rewrite printed_nil.
        split; [done |]. split; [by intros ? [] | right; by eexists].
Qed.

End EveryRun.

Lemma main_page_guard (network : request -> get_result) (args : namespace) (w : world) :
  page args < 1 ->
  main network args w = (printed w [PageMustBePositive], Exited 1).
Proof.
  intros Hpage. unfold main.
  destruct (Z.ltb_spec (page args) 1) as [_|Hge]; [| lia].
  apply bind_Exited. by erewrite bind_Returned by apply print_run.
Qed.

(** X9. Every run makes at most one network call, and never a second
    one: [search_github_repos] logs exactly its one request whatever the
    network answers, and [main] logs that request, with page size 10,
    exactly when the page is at least 1. *)
Theorem one_request_per_run
    (network : request -> get_result) (args : namespace)
    (q : list N) (p per_page : Z) (w : world) :
  requests_log (fst (search_github_repos network q p per_page w))
    = requests_log w ++ [search_request q p per_page] /\
  requests_log (fst (main network args w))
    = requests_log w ++
      (if page args <? 1 then []
       else [search_request (join (str_of " ") (query args)) (page args) 10]).
Proof.
  assert (forall q p per_page w,
            requests_log (fst (search_github_repos network q p per_page w))
            = requests_log w ++ [search_request q p per_page]) as Hsearch.
  { clear. intros q p per_page w.
    destruct (search_run network q p per_page w)
      as [(_ & e & ->) | (_ & ls & o & -> & _)]; reflexivity. }
  split; [apply Hsearch |].
  destruct (Z.ltb_spec (page args) 1) as [Hlt|Hge].
  - rewrite main_page_guard by done. cbn. by rewrite app_nil_r.
  - rewrite main_searches by done. by rewrite Hsearch.
Qed.


(** X11. For a page of at least 1, the request-failed message is printed
    exactly when [requests.get] raises or the status is one that
    [raise_for_status] rejects; no later failure is reported through
    it. *)
Theorem request_failed_message_iff
    (network : request -> get_result) (args : namespace) (w : world) :
  1 <= page args ->
  exists ls,
    stdout (fst (main network args w)) = stdout w ++ ls /\
    ((exists e, In (RequestFailed e) ls) <->
     (exists e, network (search_request (join (str_of " ") (query args))
                           (page args) 10) = GetRaises e) \/
     (exists r, network (search_request (join (str_of " ") (query args))
                           (page args) 10) = GetReturns r /\
                is_error_status (status_code r) = true)).
Proof.
  intros Hpage. rewrite main_searches by done.
  destruct (search_run network (join (str_of " ") (query args)) (page args) 10
              (printed w [Searching (join (str_of " ") (query args))]))
    as [(Hfail & e & ->) | (Hpass & ls & o & -> & Hls & _)].
  - eexists. split; [cbn; by rewrite <- app_assoc |].
    split; [done |]. intros _. exists e. right. by left.
  - eexists. split; [cbn; by rewrite <- app_assoc |].
    split; [| done]. intros [e [Hin | Hin]]; [done | by destruct (Hls e)].
Qed.

Lemma request_failed_message_iff_witness :
  exists ls,
    stdout (fst (main Samples.refuses (Samples.cli 1) initial_world)) = [] ++ ls /\
    ((exists e, In (RequestFailed e) ls) <->
     (exists e, Samples.refuses
                  (search_request (join (str_of " ") (query (Samples.cli 1)))
                     (page (Samples.cli 1)) 10) = GetRaises e) \/
     (exists r, Samples.refuses
                  (search_request (join (str_of " ") (query (Samples.cli 1)))
                     (page (Samples.cli 1)) 10) = GetReturns r /\
                is_error_status (status_code r) = true)).
Proof.
  apply (request_failed_message_iff Samples.refuses (Samples.cli 1) initial_world).
  reflexivity.
Defined.

(** ** Answers that depart from the documented shape *)

(** X12. A response with an accepted status whose body is not JSON is
    not reported as a failed request: [response.json()] is called after
    the [try] block, so its exception reaches the top level.  Only the
    search banner is printed and the exit status is 1. *)
Theorem undecodable_body_escapes
    (network : request -> get_result) (args : namespace) (r : response) (w : world) :
  1 <= page args ->
  network (search_request (join (str_of " ") (query args)) (page args) 10)
    = GetReturns r ->
  is_error_status (status_code r) = false ->
  body r = None ->
  main network args w
    = (World (stdout w ++ [Searching (join (str_of " ") (query args))])
             (requests_log w ++ [search_request (join (str_of " ") (query args))
                                   (page args) 10]),
       Raised JSONDecodeError) /\
  exit_status (snd (main network args w)) = 1.
Proof.
  intros Hpage Hnet Hst Hbody.
  rewrite main_searches by done.
  by rewrite (search_bad_json network _ _ _ r _ Hnet Hst Hbody).
Qed.

Lemma undecodable_body_escapes_witness :
  main Samples.not_json (Samples.cli 1) initial_world
    = (World ([] ++ [Searching (join (str_of " ") (query (Samples.cli 1)))])
             ([] ++ [search_request (join (str_of " ") (query (Samples.cli 1)))
                       (page (Samples.cli 1)) 10]),
       Raised JSONDecodeError) /\
  exit_status (snd (main Samples.not_json (Samples.cli 1) initial_world)) = 1.
Proof.
  apply (undecodable_body_escapes Samples.not_json (Samples.cli 1)
           (Response 200 None) initial_world); reflexivity.
Defined.

(** X13. A body that decodes to something other than an object (a
    list, a string, a number, [null]) raises [AttributeError] at the
    first [data.get], after the request and before any output. *)
Theorem non_object_body_raises
    (network : request -> get_result) (q : list N) (page per_page : Z)
    (data : value) (w : world) :
  answered network (search_request q page per_page) data ->
  (forall m, data <> PyDict m) ->
  search_github_repos network q page per_page w
    = (called w (search_request q page per_page), Raised AttributeError).
Proof.
  intros Hnet Hdata.
  rewrite (search_answered _ _ _ _ _ _ Hnet).
  by apply show_results_not_dict.
Qed.

Lemma non_object_body_raises_witness :
  search_github_repos (Samples.answers 200 (PyList [])) (str_of "python") 1 10
                      initial_world
    = (called initial_world (search_request (str_of "python") 1 10),
       Raised AttributeError).
Proof.
  apply (non_object_body_raises (Samples.answers 200 (PyList [])) (str_of "python")
           1 10 (PyList []) initial_world).
  - eexists. split; [reflexivity |]. split; reflexivity.
  - discriminate.
Defined.

(** X14. A total count that is present without being a number ([null],
    a string, a list, an object) raises [TypeError] at line 52, before
    the emptiness test and before any output: not even the no-results
    message of an empty page is printed. *)
Theorem non_numeric_total_count_raises
    (network : request -> get_result) (q : list N) (page per_page : Z)
    (m : gmap (list N) value) (v : value) (w : world) :
  answered network (search_request q page per_page) (PyDict m) ->
  m !! str_of "total_count" = Some v ->
  (forall n, v <> PyInt n) -> (forall b, v <> PyBool b) ->
  search_github_repos network q page per_page w
    = (called w (search_request q page per_page), Raised TypeError).
Proof.
  intros Hnet Hcount Hint Hbool.
  rewrite (search_answered _ _ _ _ _ _ Hnet).
  apply show_results_bad_count. rewrite Hcount. cbn [from_option id].
  destruct v; try reflexivity; [by destruct (Hbool b) | by destruct (Hint n)].
Qed.

Lemma non_numeric_total_count_raises_witness :
  search_github_repos (Samples.answers 200 (PyDict Samples.null_count_fields))
                      (str_of "python") 1 10 initial_world
    = (called initial_world (search_request (str_of "python") 1 10),
       Raised TypeError).
Proof.
  apply (non_numeric_total_count_raises
           (Samples.answers 200 (PyDict Samples.null_count_fields))
           (str_of "python") 1 10 Samples.null_count_fields PyNone initial_world).
  - eexists. split; [reflexivity |]. split; reflexivity.
  - vm_compute. reflexivity.
  - discriminate.
  - discriminate.
Defined.

(** X15. Called with a page size of 0, [search_github_repos] still
    sends the request and then raises [ZeroDivisionError] at line 52 on
    every answer whose total count is an integer or missing; nothing is
    printed. *)
Theorem zero_page_size_raises
    (network : request -> get_result) (q : list N) (page : Z)
    (m : gmap (list N) value) (w : world) :
  answered network (search_request q page 0) (PyDict m) ->
  int_or_absent (m !! str_of "total_count") = true ->
  search_github_repos network q page 0 w
    = (called w (search_request q page 0), Raised ZeroDivisionError).
Proof.
  intros Hnet Hcount.
  rewrite (search_answered _ _ _ _ _ _ Hnet).
  apply show_results_bad_count.
  by destruct (m !! str_of "total_count") as [[]|].
Qed.

Lemma zero_page_size_raises_witness :
  search_github_repos
      (Samples.answers 200 (PyDict (Samples.result_fields 25 [Samples.full_repo])))
      (str_of "python") 1 0 initial_world
    = (called initial_world (search_request (str_of "python") 1 0),
       Raised ZeroDivisionError).
Proof.
  apply (zero_page_size_raises
           (Samples.answers 200 (PyDict (Samples.result_fields 25 [Samples.full_repo])))
           (str_of "python") 1 (Samples.result_fields 25 [Samples.full_repo])
           initial_world).
  - eexists. split; [reflexivity |]. split; reflexivity.
  - vm_compute. reflexivity.
Defined.






(** ** The numbers of the header *)

Lemma search_prints_header
    (network : request -> get_result) (q : list N) (page per_page tp : Z)
    (m : gmap (list N) value) (items : list value) (end_index : value) (w : world) :
  answered network (search_request q page per_page) (PyDict m) ->
  m !! str_of "items" = Some (PyList items) -> items <> [] ->
  total_pages_of (default (PyInt 0) (m !! str_of "total_count")) per_page = Ok tp ->
  min_int (page * per_page) (default (PyInt 0) (m !! str_of "total_count"))
    = Ok end_index ->
  exists rest,
    stdout (fst (search_github_repos network q page per_page w))
      = stdout w ++
        Header (default (PyInt 0) (m !! str_of "total_count"))
               ((page - 1) * per_page + 1) end_index tp page :: rest.
Proof.
  intros Hnet Hitems Hne Htp Hend.
  rewrite (search_answered _ _ _ _ _ _ Hnet).
  erewrite show_results_items; [| exact Htp | | exact Hend |];
    [| rewrite Hitems; by apply nonempty_truthy | by rewrite Hitems ].
  match goal with |- context [printed ?w0 ?hd] => set (w1 := printed w0 hd) end.
  destruct (for_each_render_output items w1) as (block & Hw & _).
  unfold mbind, prog_bind.
  destruct (for_each items render_repo w1) as [w2 [[]|code|e]];
    cbn [fst] in Hw; subst w2.
  - destruct (page <? tp).
    + eexists. rewrite print_run. cbn. rewrite <- !app_assoc. reflexivity.
    + eexists. cbn. rewrite <- !app_assoc. reflexivity.
  - eexists. cbn. rewrite <- !app_assoc. reflexivity.
  - eexists. cbn. rewrite <- !app_assoc. reflexivity.
Qed.

(** X18. The three numbers of the header agree with each other, for
    every page >= 1, page size > 0 and total count >= 0: the end index
    never exceeds the total count, the range never spans more than one
    page size, it is non-empty exactly when the page is within the page
    count, and it is a full page whenever a next page exists. *)
Theorem header_numbers_agree
    (network : request -> get_result) (q : list N) (page per_page t : Z)
    (m : gmap (list N) value) (items : list value) (w : world) :
  1 <= page -> 0 < per_page -> 0 <= t ->
  answered network (search_request q page per_page) (PyDict m) ->
  m !! str_of "items" = Some (PyList items) -> items <> [] ->
  m !! str_of "total_count" = Some (PyInt t) ->
  exists start_index end_index total_pages rest,
    stdout (fst (search_github_repos network q page per_page w))
      = stdout w ++
        Header (PyInt t) start_index (PyInt end_index) total_pages page :: rest /\
    end_index <= t /\
    end_index - start_index + 1 <= per_page /\
    (start_index <= end_index <-> page <= total_pages) /\
    (page < total_pages -> end_index = page * per_page /\
                           end_index - start_index + 1 = per_page).
Proof.
  intros Hpage Hpp Ht Hnet Hitems Hne Hcount.
  destruct (search_prints_header network q page per_page ((t + per_page - 1) / per_page)
              m items (PyInt (Z.min (page * per_page) t)) w Hnet Hitems Hne)
    as [rest Hout].
  { rewrite Hcount. apply total_pages_of_int. lia. }
  { rewrite Hcount. apply min_int_int. }
  rewrite Hcount in Hout. cbn [from_option id] in Hout.
  eexists _, _, _, rest. split; [exact Hout |].
  pose proof (Z.div_mod (t + per_page - 1) per_page ltac:(lia)) as Hdm.
  pose proof (Z.mod_pos_bound (t + per_page - 1) per_page Hpp) as Hmod.
  set (tp := (t + per_page - 1) / per_page) in *.
  assert (Hceil : (tp - 1) * per_page < t <= tp * per_page) by nia.
  split; [lia |]. split; [nia |]. split; [split; intros H; nia |].
  intros Hlt. assert (page * per_page < t) by nia. split; lia.
Qed.

Lemma header_numbers_agree_witness :
  exists start_index end_index total_pages rest,
    stdout (fst (search_github_repos
                   (Samples.answers 200
                      (PyDict (Samples.result_fields 25 [Samples.full_repo])))
                   (str_of "python") 3 10 initial_world))
      = [] ++ Header (PyInt 25) start_index (PyInt end_index) total_pages 3 :: rest /\
    end_index <= 25 /\
    end_index - start_index + 1 <= 10 /\
    (start_index <= end_index <-> 3 <= total_pages) /\
    (3 < total_pages -> end_index = 3 * 10 /\ end_index - start_index + 1 = 10).
Proof.
  apply (header_numbers_agree
           (Samples.answers 200 (PyDict (Samples.result_fields 25 [Samples.full_repo])))
           (str_of "python") 3 10 25
           (Samples.result_fields 25 [Samples.full_repo]) [Samples.full_repo]
           initial_world); try lia.
  - eexists. split; [reflexivity |]. split; reflexivity.
  - vm_compute. reflexivity.
  - discriminate.
  - vm_compute. reflexivity.
Defined.

(** ** Status codes *)

(** X19. Apart from the test of [raise_for_status] the status code is
    not looked at: every response whose status lies outside 400 to 599
    (204, 301, 304, ...) is read like a success, and the run is what
    lines 50 to 83 do with its decoded body. *)
Theorem other_statuses_are_read_as_success
    (network : request -> get_result) (q : list N) (page per_page : Z)
    (r : response) (data : value) (w : world) :
  network (search_request q page per_page) = GetReturns r ->
  status_code r < 400 \/ 600 <= status_code r ->
  body r = Some data ->
  search_github_repos network q page per_page w
    = show_results data page per_page (called w (search_request q page per_page)) /\
  forall e, ~ In (RequestFailed e)
              (drop (length (stdout w))
                    (stdout (fst (search_github_repos network q page per_page w)))).
Proof.
  intros Hnet Hst Hbody.
  assert (answered network (search_request q page per_page) data) as Hans.
  { exists r. split; [done |]. split; [| done].
    unfold is_error_status. apply andb_false_iff.
    destruct Hst; [left; apply Z.leb_gt | right; apply Z.ltb_ge]; lia. }
  rewrite (search_answered _ _ _ _ _ _ Hans). split; [done |].
  destruct (show_results_run data page per_page
              (called w (search_request q page per_page)))
    as (ls & o & -> & Hls & _).
  cbn [fst stdout printed called]. by rewrite drop_app_length.
Qed.

Lemma other_statuses_are_read_as_success_witness :
  search_github_repos Samples.multiple_choices (str_of "python") 1 10 initial_world
    = show_results (PyDict (Samples.result_fields 0 [])) 1 10
        (called initial_world (search_request (str_of "python") 1 10)) /\
  forall e, ~ In (RequestFailed e)
              (drop (length (stdout initial_world))
                    (stdout (fst (search_github_repos Samples.multiple_choices
                                    (str_of "python") 1 10 initial_world)))).
Proof.
  apply (other_statuses_are_read_as_success Samples.multiple_choices
           (str_of "python") 1 10
           (Response 300 (Some (PyDict (Samples.result_fields 0 []))))
           (PyDict (Samples.result_fields 0 [])) initial_world).
  - reflexivity.
  - left. cbn. lia.
  - reflexivity.
Defined.

(** ** The banner *)

(** X20. For a page of at least 1 the search banner with the joined
    keywords is the first line [main] prints, whatever the network does
    afterwards. *)
Theorem banner_is_printed_first
    (network : request -> get_result) (args : namespace) (w : world) :
  1 <= page args ->
  exists rest,
    stdout (fst (main network args w))
      = stdout w ++ Searching (join (str_of " ") (query args)) :: rest.
Proof.
  intros Hpage. rewrite main_searches by done.
  destruct (search_run network (join (str_of " ") (query args)) (page args) 10
              (printed w [Searching (join (str_of " ") (query args))]))
    as [(_ & e & ->) | (_ & ls & o & -> & _)];
    eexists; cbn; by rewrite <- app_assoc.
Qed.

Lemma banner_is_printed_first_witness :
  exists rest,
    stdout (fst (main Samples.not_json (Samples.cli 1) initial_world))
      = [] ++ Searching (join (str_of " ") (query (Samples.cli 1))) :: rest.
Proof.
  apply (banner_is_printed_first Samples.not_json (Samples.cli 1) initial_world).
  reflexivity.
Defined.
